(** * LSMD interface device, 32MX_SP firmware: [src/32MX_SP/src/main.c]

    A shallow embedding of the firmware's three routines
    ([Calculate_ADC_Average], [UART_RX_Callback], [ADC_Callback]) over an
    explicit record of the C globals and of the few peripheral registers the
    routines touch, followed by the properties of the averaging window, of
    the command recognizer and of the reporter.

    Conventions.
    - [uint32_t] and [uint8_t] values are [Z] with the wrap-around written out
      ([u32], [u8]); [char] cells are [Z] character codes.
    - A C array is a [list Z] of the declared size; reads and writes are
      bounds-checked and an access outside the array is a fault ([None]).
    - A routine is a computation in the state-and-fault monad [M]. *)

From Stdlib Require Import ZArith List Lia Bool String Ascii.
From stdpp Require Import base option list.

Local Open Scope Z_scope.

(** ** C scalars and C strings *)

Module C.

Definition u32 (x : Z) : Z := x mod 2 ^ 32.
Definition u8 (x : Z) : Z := x mod 2 ^ 8.

(** Unsigned division; dividing by zero is undefined behaviour. *)
Definition udiv (a b : Z) : option Z :=
  if b =? 0 then None else Some (a / b).

(** [a[i] = v] on an array object. *)
Definition store (a : list Z) (i : Z) (v : Z) : option (list Z) :=
  if (0 <=? i) && (i <? Z.of_nat (length a))
  then Some (<[Z.to_nat i := v]> a)
  else None.

(** [strlen]: the scan faults when it leaves the array before a NUL. *)
Fixpoint strlen (a : list Z) : option Z :=
  match a with
  | [] => None
  | c :: a' => if c =? 0 then Some 0 else Z.succ <$> strlen a'
  end.

(** [strcmp]: zero when both strings agree up to and including the NUL. *)
Fixpoint strcmp (a b : list Z) : option Z :=
  match a, b with
  | x :: a', y :: b' =>
      if x =? y then (if x =? 0 then Some 0 else strcmp a' b')
      else Some (x - y)
  | _, _ => None
  end.

(** The digits printed by the [%u] conversion, most significant first.
    Ten rounds cover every 32-bit value. *)
Fixpoint utoa_aux (rounds : nat) (n : Z) (acc : list Z) : list Z :=
  match rounds with
  | O => acc
  | S r =>
      let acc' := (48 + n mod 10) :: acc in
      if n / 10 =? 0 then acc' else utoa_aux r (n / 10) acc'
  end.

Definition utoa (n : Z) : list Z := utoa_aux 10 n [].

(** [sprintf(dst, "%u\r\n", v)] with [v] an [unsigned int]: digits, CR, LF and
    the terminating NUL are written from [dst[0]] on. *)
Definition sprintf_u_crlf (dst : list Z) (v : Z) : option (list Z) :=
  let out := utoa (u32 v) ++ [13; 10; 0] in
  if (length out <=? length dst)%nat
  then Some (out ++ drop (length out) dst)
  else None.

(** The character codes of a text. *)
Definition chars (text : string) : list Z :=
  (λ c, Z.of_nat (nat_of_ascii c)) <$> list_ascii_of_string text.

(** String literals as the arrays the compiler lays out: the characters,
    CR LF where the literal has "\r\n", and the terminating NUL. *)
Definition lit_START : list Z := Eval cbv in chars "START" ++ [0].
Definition lit_STOP : list Z := Eval cbv in chars "STOP" ++ [0].
Definition lit_OK_START : list Z := Eval cbv in chars "OK_START" ++ [13; 10; 0].
Definition lit_OK_STOP : list Z := Eval cbv in chars "OK_STOP" ++ [13; 10; 0].
Definition lit_READY : list Z := Eval cbv in chars "READY" ++ [13; 10; 0].

End C.

(** ** Configuration *)

Definition ADC_SAMPLE_COUNT : Z := 1200.

Definition sizeof_txBuffer : Z := 64.
Definition sizeof_rxBuffer : Z := 16.

(** ** The globals and the peripheral state *)

Record State := mkState {
  (* globals of main.c *)
  adcSum : Z;
  sampleCount : Z;
  dataReady : bool;
  adcEnabled : bool;
  txBuffer : list Z;
  rxBuffer : list Z;
  rxByte : Z;
  rxIndex : Z;
  (* UART2: the writes accepted so far, oldest first; the number of polls
     for which the transmitter still reports busy; whether a one-byte read
     is pending *)
  uartTx : list (list Z);
  txBusy : nat;
  rxArmed : bool;
  (* ADC: interrupt flag of the ADC source, result buffer 0 *)
  adcIF : bool;
  adcResult0 : Z
}.

Definition set_adcSum (v : Z) (s : State) : State :=
  mkState v (sampleCount s) (dataReady s) (adcEnabled s) (txBuffer s)
    (rxBuffer s) (rxByte s) (rxIndex s) (uartTx s) (txBusy s) (rxArmed s)
    (adcIF s) (adcResult0 s).
Definition set_sampleCount (v : Z) (s : State) : State :=
  mkState (adcSum s) v (dataReady s) (adcEnabled s) (txBuffer s)
    (rxBuffer s) (rxByte s) (rxIndex s) (uartTx s) (txBusy s) (rxArmed s)
    (adcIF s) (adcResult0 s).
Definition set_dataReady (v : bool) (s : State) : State :=
  mkState (adcSum s) (sampleCount s) v (adcEnabled s) (txBuffer s)
    (rxBuffer s) (rxByte s) (rxIndex s) (uartTx s) (txBusy s) (rxArmed s)
    (adcIF s) (adcResult0 s).
Definition set_adcEnabled (v : bool) (s : State) : State :=
  mkState (adcSum s) (sampleCount s) (dataReady s) v (txBuffer s)
    (rxBuffer s) (rxByte s) (rxIndex s) (uartTx s) (txBusy s) (rxArmed s)
    (adcIF s) (adcResult0 s).
Definition set_txBuffer (v : list Z) (s : State) : State :=
  mkState (adcSum s) (sampleCount s) (dataReady s) (adcEnabled s) v
    (rxBuffer s) (rxByte s) (rxIndex s) (uartTx s) (txBusy s) (rxArmed s)
    (adcIF s) (adcResult0 s).
Definition set_rxBuffer (v : list Z) (s : State) : State :=
  mkState (adcSum s) (sampleCount s) (dataReady s) (adcEnabled s) (txBuffer s)
    v (rxByte s) (rxIndex s) (uartTx s) (txBusy s) (rxArmed s)
    (adcIF s) (adcResult0 s).
Definition set_rxByte (v : Z) (s : State) : State :=
  mkState (adcSum s) (sampleCount s) (dataReady s) (adcEnabled s) (txBuffer s)
    (rxBuffer s) v (rxIndex s) (uartTx s) (txBusy s) (rxArmed s)
    (adcIF s) (adcResult0 s).
Definition set_rxIndex (v : Z) (s : State) : State :=
  mkState (adcSum s) (sampleCount s) (dataReady s) (adcEnabled s) (txBuffer s)
    (rxBuffer s) (rxByte s) v (uartTx s) (txBusy s) (rxArmed s)
    (adcIF s) (adcResult0 s).
Definition set_uartTx (v : list (list Z)) (s : State) : State :=
  mkState (adcSum s) (sampleCount s) (dataReady s) (adcEnabled s) (txBuffer s)
    (rxBuffer s) (rxByte s) (rxIndex s) v (txBusy s) (rxArmed s)
    (adcIF s) (adcResult0 s).
Definition set_txBusy (v : nat) (s : State) : State :=
  mkState (adcSum s) (sampleCount s) (dataReady s) (adcEnabled s) (txBuffer s)
    (rxBuffer s) (rxByte s) (rxIndex s) (uartTx s) v (rxArmed s)
    (adcIF s) (adcResult0 s).
Definition set_rxArmed (v : bool) (s : State) : State :=
  mkState (adcSum s) (sampleCount s) (dataReady s) (adcEnabled s) (txBuffer s)
    (rxBuffer s) (rxByte s) (rxIndex s) (uartTx s) (txBusy s) v
    (adcIF s) (adcResult0 s).
Definition set_adcIF (v : bool) (s : State) : State :=
  mkState (adcSum s) (sampleCount s) (dataReady s) (adcEnabled s) (txBuffer s)
    (rxBuffer s) (rxByte s) (rxIndex s) (uartTx s) (txBusy s) (rxArmed s)
    v (adcResult0 s).
Definition set_adcResult0 (v : Z) (s : State) : State :=
  mkState (adcSum s) (sampleCount s) (dataReady s) (adcEnabled s) (txBuffer s)
    (rxBuffer s) (rxByte s) (rxIndex s) (uartTx s) (txBusy s) (rxArmed s)
    (adcIF s) v.

(** ** The state-and-fault monad *)

Definition M (A : Type) : Type := State → option (A * State).

#[global] Instance M_ret : MRet M := λ A x s, Some (x, s).
#[global] Instance M_bind : MBind M := λ A B f m s,
  match m s with
  | Some (a, s') => f a s'
  | None => None
  end.

Definition get {A : Type} (field : State → A) : M A := λ s, Some (field s, s).
Definition put (setter : State → State) : M unit := λ s, Some (tt, setter s).
Definition lift {A : Type} (o : option A) : M A := λ s,
  match o with
  | Some a => Some (a, s)
  | None => None
  end.

(** The state a routine leaves, or [None] on a fault. *)
Definition exec {A : Type} (m : M A) (s : State) : option State :=
  snd <$> m s.

(** ** Hardware adapter (the Harmony peripheral library of definitions.h)

    Only what the routines of main.c observe is kept: the transmitter
    accepts a write when idle and then stays busy for a finite number of
    polls; a read request arms the receiver for one byte. *)

Module Hal.

(** [while (UART2_WriteIsBusy());] every poll lets the transfer advance. *)
Fixpoint spin (polls : nat) : nat :=
  match polls with
  | O => O
  | S p => spin p
  end.

Definition UART2_WaitIdle : M unit :=
  put (λ s, set_txBusy (spin (txBusy s)) s).

(** [UART2_Write(buf, n)]: declined while a transfer is in progress. *)
Definition UART2_Write (buf : list Z) (n : Z) : M bool := λ s,
  if (0 <=? n) && (n <=? Z.of_nat (length buf)) then
    match txBusy s with
    | O =>
        let data := take (Z.to_nat n) buf in
        Some (true, set_txBusy (length data) (set_uartTx (uartTx s ++ [data]) s))
    | S _ => Some (false, s)
    end
  else None.

(** [UART2_Read(&rxByte, 1)]. *)
Definition UART2_Read_rxByte : M unit := put (set_rxArmed true).

(** [EVIC_SourceStatusClear(INT_SOURCE_ADC)]. *)
Definition EVIC_SourceStatusClear_ADC : M unit := put (set_adcIF false).

(** [ADC_ResultGet(ADC_RESULT_BUFFER_0)]. *)
Definition ADC_ResultGet_0 : M Z := get adcResult0.

End Hal.

(** ** Processing functions *)

Definition Calculate_ADC_Average : M unit :=
  currentSum ← get adcSum;
  currentCount ← get sampleCount;
  put (set_adcSum 0);;
  put (set_sampleCount 0);;
  put (set_dataReady false);;
  if currentCount =? 0 then mret tt
  else
    average ← lift (C.udiv currentSum currentCount);
    Hal.UART2_WaitIdle;;
    tx ← get txBuffer;
    tx' ← lift (C.sprintf_u_crlf tx average);
    put (set_txBuffer tx');;
    tx ← get txBuffer;
    n ← lift (C.strlen tx);
    Hal.UART2_Write tx n;;
    mret tt.

(** ** Interrupt callbacks *)

Definition rx_store (i v : Z) : M unit :=
  buf ← get rxBuffer;
  buf' ← lift (C.store buf i v);
  put (set_rxBuffer buf').

Definition rx_strcmp (literal : list Z) : M Z :=
  buf ← get rxBuffer;
  lift (C.strcmp buf literal).

Definition UART_RX_Callback (context : Z) : M unit :=
  b ← get rxByte;
  (if (0x20 <=? b) && (b <=? 0x7E) then
     i ← get rxIndex;
     if i <? sizeof_rxBuffer - 1 then
       put (set_rxIndex (C.u8 (i + 1)));;
       rx_store i b;;
       i ← get rxIndex;
       rx_store i 0;;
       r ← rx_strcmp C.lit_START;
       if r =? 0 then
         put (set_adcEnabled true);;
         put (set_rxIndex 0);;
         rx_store 0 0;;
         Hal.UART2_WaitIdle;;
         Hal.UART2_Write C.lit_OK_START 10;;
         mret tt
       else
         r ← rx_strcmp C.lit_STOP;
         if r =? 0 then
           put (set_adcEnabled false);;
           put (set_adcSum 0);;
           put (set_sampleCount 0);;
           put (set_dataReady false);;
           put (set_rxIndex 0);;
           rx_store 0 0;;
           Hal.UART2_WaitIdle;;
           Hal.UART2_Write C.lit_OK_STOP 9;;
           mret tt
         else
           i ← get rxIndex;
           if sizeof_rxBuffer - 1 <=? i then
             put (set_rxIndex 0);;
             rx_store 0 0
           else mret tt
     else mret tt
   else mret tt);;
  Hal.UART2_Read_rxByte.

Definition ADC_Callback (context : Z) : M unit :=
  Hal.EVIC_SourceStatusClear_ADC;;
  enabled ← get adcEnabled;
  if negb enabled then mret tt
  else
    sample ← Hal.ADC_ResultGet_0;
    sum ← get adcSum;
    put (set_adcSum (C.u32 (sum + sample)));;
    count ← get sampleCount;
    put (set_sampleCount (C.u32 (count + 1)));;
    count ← get sampleCount;
    if ADC_SAMPLE_COUNT <=? count then put (set_dataReady true)
    else mret tt.

(** ** Main entry point and the interrupt sources *)

Definition power_on : State :=
  {| adcSum := 0; sampleCount := 0; dataReady := false; adcEnabled := false;
     txBuffer := replicate (Z.to_nat sizeof_txBuffer) 0;
     rxBuffer := replicate (Z.to_nat sizeof_rxBuffer) 0;
     rxByte := 0; rxIndex := 0;
     uartTx := []; txBusy := O; rxArmed := false;
     adcIF := false; adcResult0 := 0 |}.

(** [main] up to the loop. Clock, pin and LED set-up, the registration of the
    two callbacks and the start of the ADC and of Timer 3 leave the modelled
    state alone. *)
Definition main_init : M unit :=
  Hal.UART2_Write C.lit_READY 7;;
  Hal.UART2_Read_rxByte.

(** One turn of the [while (true)] loop. *)
Definition main_loop_body : M unit :=
  ready ← get dataReady;
  if (ready : bool) then Calculate_ADC_Average else mret tt.

Inductive event : Type :=
| Conversion (sample : Z)   (* conversion complete: ADC interrupt *)
| Received (b : Z)          (* byte received: UART2 RX interrupt *)
| MainLoop                  (* one turn of the main loop *)
| Report.                   (* a call of Calculate_ADC_Average *)

Definition fire (e : event) (s : State) : option State :=
  match e with
  | Conversion sample =>
      exec (ADC_Callback 0) (set_adcIF true (set_adcResult0 sample s))
  | Received b =>
      exec (UART_RX_Callback 0) (set_rxArmed false (set_rxByte b s))
  | MainLoop => exec main_loop_body s
  | Report => exec Calculate_ADC_Average s
  end.

Fixpoint run (tr : list event) (s : State) : option State :=
  match tr with
  | [] => Some s
  | e :: tr' =>
      match fire e s with
      | Some s' => run tr' s'
      | None => None
      end
  end.

Definition booted : option State := exec main_init power_on.

(** States reachable from boot under a scheduling guard [sched]: an event
    [e] may fire in state [s] only when [sched e s] holds. *)
Inductive reach (sched : event → State → Prop) : State → Prop :=
| reach_boot s : booted = Some s → reach sched s
| reach_fire e s s' :
    reach sched s → sched e s → fire e s = Some s' → reach sched s'.

(** Any interleaving of the operations. *)
Definition any_order : event → State → Prop := λ _ _, True.

(** The completed window is drained before the next conversion: no sample
    arrives while [dataReady] is still set. *)
Definition drained_first : event → State → Prop := λ e s,
  match e with
  | Conversion _ => dataReady s = false
  | _ => True
  end.

Definition reachable : State → Prop := reach any_order.

(** ** Vocabulary of the properties *)

(** The interrupts raised by a received text and by a run of samples. *)
Definition bytes_of (tr : list Z) : list event := Received <$> tr.
Definition samples_of (l : list Z) : list event := Conversion <$> l.

(** The command texts, and the lines the firmware sends. *)
Definition txt_START : list Z := Eval cbv in C.chars "START".
Definition txt_STOP : list Z := Eval cbv in C.chars "STOP".
Definition ack_START : list Z := Eval cbv in C.chars "OK_START" ++ [13; 10].
Definition ack_STOP : list Z := Eval cbv in C.chars "OK_STOP" ++ [13; 10].
Definition msg_READY : list Z := Eval cbv in C.chars "READY" ++ [13; 10].

(** Printable ASCII. *)
Definition printable (b : Z) : Prop := 0x20 ≤ b ≤ 0x7E.

(** A decimal numeral for [n]: digits only, at least one, no leading zero
    unless the numeral is "0", and the digits evaluate to [n]. *)
Definition is_digit (c : Z) : Prop := 48 ≤ c ≤ 57.
Definition decimal_value (ds : list Z) : Z :=
  fold_left (λ v d, 10 * v + (d - 48)) ds 0.
Definition decimal_numeral (ds : list Z) (n : Z) : Prop :=
  Forall is_digit ds ∧ ds ≠ [] ∧ (head ds = Some 48 → ds = [48]) ∧
  decimal_value ds = n.

(** The sum of the samples, as an integer. *)
Definition total (l : list Z) : Z := foldr Z.add 0 l.

(** Modelled from the spec: the largest value [ADC_ResultGet] returns, which
    the absent definitions.h and device configuration fix. The spec gives the
    sample as an "unsigned integer of the device's ADC resolution"; the
    device named in the header of main.c, PIC32MX274F256B, has a 10-bit
    converter. *)
Definition ADC_MAX_RESULT : Z := 1023.

(** Typing of the globals. *)
Definition well_typed (s : State) : Prop :=
  0 ≤ adcSum s < 2 ^ 32 ∧ 0 ≤ sampleCount s < 2 ^ 32 ∧
  length (txBuffer s) = 64%nat.

(** The line held by the recognizer: [rxIndex] characters, all printable, at
    the front of the 16-byte [rxBuffer]. *)
Definition rx_holds (s : State) (line : list Z) : Prop :=
  length (rxBuffer s) = 16%nat ∧
  rxIndex s = Z.of_nat (length line) ∧
  (length line < 15)%nat ∧
  Forall printable line ∧
  ∃ rest, rxBuffer s = line ++ rest.

(** The empty line as the firmware resets it: index zero and a NUL in the
    first cell. *)
Definition rx_empty (s : State) : Prop :=
  rxIndex s = 0 ∧ rxBuffer s !! 0%nat = Some 0 ∧ length (rxBuffer s) = 16%nat.

(** Well-formed states: the globals are well typed and the recognizer holds
    some line. *)
Definition sound (s : State) : Prop :=
  well_typed s ∧ ∃ line, rx_holds s line.

(** The command vocabulary. *)
Definition is_command (text : list Z) : Prop :=
  text = txt_START ∨ text = txt_STOP.

(** The line held after a printable byte. *)
Definition next_line (line : list Z) (b : Z) : list Z :=
  if decide (is_command (line ++ [b])) then []
  else if decide (length (line ++ [b]) = 15%nat) then []
  else line ++ [b].

(** The texts the buffer holds, one after each byte of [w]. *)
Fixpoint texts_seen (line w : list Z) : list (list Z) :=
  match w with
  | [] => []
  | b :: w' => (line ++ [b]) :: texts_seen (line ++ [b]) w'
  end.

(** The state the recognizer leaves after a printable byte [b] when it
    holds [line]; [buf] is the receive buffer with [b] and the NUL stored. *)
Definition recognized (line : list Z) (b : Z) (buf : list Z) (s : State) : State :=
  let text := line ++ [b] in
  if decide (text = txt_START) then
    set_rxArmed true
      (set_txBusy 10%nat
         (set_uartTx (uartTx s ++ [ack_START])
            (set_rxBuffer (<[0%nat := 0]> buf)
               (set_rxIndex 0 (set_adcEnabled true s)))))
  else if decide (text = txt_STOP) then
    set_rxArmed true
      (set_txBusy 9%nat
         (set_uartTx (uartTx s ++ [ack_STOP])
            (set_rxBuffer (<[0%nat := 0]> buf)
               (set_rxIndex 0
                  (set_dataReady false
                     (set_sampleCount 0
                        (set_adcSum 0 (set_adcEnabled false s))))))))
  else if decide (length text = 15%nat) then
    set_rxArmed true (set_rxBuffer (<[0%nat := 0]> buf) (set_rxIndex 0 s))
  else
    set_rxArmed true (set_rxBuffer buf (set_rxIndex (Z.of_nat (length text)) s)).

(** Everything outside the recognizer's own variables. *)
Definition quiet (s s' : State) : Prop :=
  adcSum s' = adcSum s ∧ sampleCount s' = sampleCount s ∧
  dataReady s' = dataReady s ∧ adcEnabled s' = adcEnabled s ∧
  uartTx s' = uartTx s ∧ txBusy s' = txBusy s ∧ txBuffer s' = txBuffer s.

(** What an operation may do to the accumulator: keep it or reset it. *)
Definition accum_kept_or_reset (s s' : State) : Prop :=
  (adcSum s' = adcSum s ∧ sampleCount s' = sampleCount s ∧
   dataReady s' = dataReady s) ∨
  (adcSum s' = 0 ∧ sampleCount s' = 0 ∧ dataReady s' = false).

(** ** States and inputs of the worked scenarios *)

(** The state of a run that did not fault. *)
Definition the_state (o : option State) : State := default power_on o.

(** The state the firmware is in after boot, "START" and the samples [l]. *)
Definition scenario (l : list Z) : option State :=
  booted ≫= run (bytes_of txt_START ++ samples_of l).

(** Texts used in the scenarios below. *)
Definition txt_AB : list Z := Eval cbv in C.chars "AB".
Definition txt_STO : list Z := Eval cbv in C.chars "STO".

(** A window in progress (two samples taken) with an empty line. *)
Definition window_in_progress : State :=
  the_state (scenario [7; 9]).

(** One sample short of a full window. *)
Definition almost_full : State := the_state (scenario (replicate 1199 5)).

(** The window when the report comes one conversion late. *)
Definition late_window : State := the_state (scenario (replicate 1201 0)).

(** The state holding "STO" with a window in progress, as [P] arrives. *)
Definition before_STOP : State :=
  set_rxByte 80
    (the_state (booted ≫= run (bytes_of txt_START ++ samples_of [7; 9] ++
                                bytes_of txt_STO))).

(** The state holding "STO" as the byte 0x7F arrives. *)
Definition before_DEL : State :=
  set_rxArmed false
    (set_rxByte 127 (the_state (booted ≫= run (bytes_of txt_STO)))).

(** Fifteen characters with "START" and "STOP" inside, neither ever alone
    in the buffer. *)
Definition long_line : list Z := Eval cbv in C.chars "XSTART STOP!!!!".

(** The state after boot and the bytes "AB". *)
Definition after_AB : State :=
  the_state (booted ≫= run (bytes_of txt_AB)).

(** The state after boot and the bytes "ABSTART". *)
Definition after_ABSTART : State :=
  the_state (booted ≫= run (bytes_of (txt_AB ++ txt_START))).

(** ** Vocabulary of the further properties *)

(** The acknowledgement of a command: "OK_", the command, CR LF. *)
Definition ack_of (cmd : list Z) : list Z :=
  C.chars "OK_" ++ cmd ++ [13; 10].

(** The line reporting the average [q]. *)
Definition report_line (q : Z) : list Z := C.utoa q ++ [13; 10].

(** The lines the firmware sends after "READY": an acknowledgement, or the
    decimal numeral of a 32-bit value, each closed by CR LF. *)
Definition sent_line (ln : list Z) : Prop :=
  ln = ack_START ∨ ln = ack_STOP ∨
  ∃ ds n, decimal_numeral ds n ∧ 0 ≤ n < 2 ^ 32 ∧ ln = ds ++ [13; 10].

(** The main loop polling around the samples of one window: a turn of the
    loop before each conversion and one after the last. *)
Definition polled_window (w : list Z) : list event :=
  flat_map (λ x, [MainLoop; Conversion x]) w ++ [MainLoop].

(** A command sent as a line: the text and its terminator. *)
Definition command_lines (term : list Z) (cmds : list (list Z)) : list Z :=
  flat_map (λ cmd, cmd ++ term) cmds.

(** [dataReady] tells whether a full window is pending. *)
Definition ready_iff_full (s : State) : Prop :=
  dataReady s = bool_decide (ADC_SAMPLE_COUNT ≤ sampleCount s).

(** A window just reset, with sampling enabled. *)
Definition fresh_window (s : State) : Prop :=
  adcEnabled s = true ∧ adcSum s = 0 ∧ sampleCount s = 0 ∧
  dataReady s = false ∧ length (txBuffer s) = 64%nat.

(** The state after boot and the bytes "STO". *)
Definition after_STO : State :=
  the_state (booted ≫= run (bytes_of txt_STO)).

(** ** Proof tactics *)

(** Unfolding of the monad and of the adapter calls. *)
Ltac run_monad :=
  unfold Hal.UART2_WaitIdle, Hal.UART2_Write, Hal.UART2_Read_rxByte,
    Hal.EVIC_SourceStatusClear_ADC, Hal.ADC_ResultGet_0;
  unfold exec, mbind, M_bind, mret, M_ret, get, put, lift.

(** Simplification that leaves the arithmetic and the C primitives folded. *)
Ltac rx_cbn :=
  cbn -[Z.leb Z.ltb Z.eqb C.store C.strcmp C.u8 Z.of_nat Z.sub Z.add Hal.spin].

(** * Properties *)

(** ** C strings *)

Section CStrings.

Implicit Types (a l c rest : list Z) (v x n : Z).

Lemma store_at_length l x rest v :
  C.store (l ++ x :: rest) (Z.of_nat (length l)) v = Some (l ++ v :: rest).
Proof.
  unfold C.store. rewrite length_app. simpl.
  replace ((0 <=? Z.of_nat (length l)) &&
           (Z.of_nat (length l) <? Z.of_nat (length l + S (length rest))))
    with true by (symmetry; apply andb_true_iff; split;
                  [apply Z.leb_le | apply Z.ltb_lt]; lia).
  rewrite Nat2Z.id. f_equal.
  replace (length l) with (length l + 0)%nat at 1 by lia.
  by rewrite insert_app_r.
Qed.

Lemma strlen_app l rest :
  Forall (λ x, x ≠ 0) l → C.strlen (l ++ 0 :: rest) = Some (Z.of_nat (length l)).
Proof.
  induction 1 as [|x l Hx _ IH]; simpl; [done|].
  destruct (Z.eqb_spec x 0); [done|]. rewrite IH. simpl. f_equal. lia.
Qed.

(** On NUL-terminated strings [strcmp] answers, and answers zero exactly
    when the two texts are the same. *)
Lemma strcmp_texts c rest l :
  Forall (λ x, x ≠ 0) c → Forall (λ x, x ≠ 0) l →
  ∃ r, C.strcmp (c ++ 0 :: rest) (l ++ [0]) = Some r ∧ (r = 0 ↔ c = l).
Proof.
  intros Hc. revert l. induction Hc as [|x c Hx _ IH]; intros l Hl.
  - destruct Hl as [|y l Hy _]; cbn [C.strcmp app].
    + exists 0. done.
    + destruct (Z.eqb_spec 0 y); [congruence|].
      exists (0 - y). split; [done|]. split; [lia|done].
  - destruct Hl as [|y l Hy Hl]; cbn [C.strcmp app].
    + destruct (Z.eqb_spec x 0); [done|].
      exists (x - 0). split; [done|]. split; [lia|done].
    + destruct (Z.eqb_spec x y) as [->|Hne].
      * destruct (Z.eqb_spec y 0); [done|].
        destruct (IH l Hl) as (r & -> & Hr). exists r. split; [done|].
        rewrite Hr. split; [by intros ->|by intros [= ->]].
      * exists (x - y). split; [done|]. split; [lia|by intros [= ? _]].
Qed.

Lemma utoa_aux_digits rounds n acc :
  Forall is_digit acc → Forall is_digit (C.utoa_aux rounds n acc).
Proof.
  revert n acc. induction rounds as [|r IH]; intros n acc Hacc; simpl; [done|].
  assert (Forall is_digit ((48 + n mod 10) :: acc)) as Hacc'.
  { constructor; [|done]. unfold is_digit.
    pose proof (Z.mod_pos_bound n 10). lia. }
  destruct (n / 10 =? 0); [done|]. by apply IH.
Qed.

Lemma utoa_aux_length rounds n acc :
  (length acc < length (C.utoa_aux (S rounds) n acc) ≤ S rounds + length acc)%nat.
Proof.
  revert n acc. induction rounds as [|r IH]; intros n acc.
  - simpl. destruct (n / 10 =? 0); simpl; lia.
  - change (C.utoa_aux (S (S r)) n acc)
      with (if n / 10 =? 0 then (48 + n mod 10) :: acc
            else C.utoa_aux (S r) (n / 10) ((48 + n mod 10) :: acc)).
    destruct (n / 10 =? 0); [simpl; lia|].
    specialize (IH (n / 10) ((48 + n mod 10) :: acc)). cbn [length] in IH. lia.
Qed.

Lemma utoa_aux_value rounds n acc :
  0 ≤ n < 10 ^ Z.of_nat rounds →
  fold_left (λ v d, 10 * v + (d - 48)) (C.utoa_aux rounds n acc) 0 =
  fold_left (λ v d, 10 * v + (d - 48)) acc n.
Proof.
  revert n acc. induction rounds as [|r IH]; intros n acc Hn.
  - simpl in *. f_equal. lia.
  - rewrite Nat2Z.inj_succ, Z.pow_succ_r in Hn by lia.
    pose proof (Z.div_mod n 10 ltac:(lia)) as Hdm.
    pose proof (Z.mod_pos_bound n 10 ltac:(lia)) as Hm.
    simpl. destruct (Z.eqb_spec (n / 10) 0) as [Hz|Hz].
    + simpl. f_equal. lia.
    + rewrite IH by (split; [apply Z.div_pos | apply Z.div_lt_upper_bound]; lia).
      simpl. f_equal. lia.
Qed.

Lemma utoa_aux_head rounds n acc :
  0 ≤ n < 10 ^ Z.of_nat (S rounds) → (n = 0 → acc = []) →
  head (C.utoa_aux (S rounds) n acc) = Some 48 →
  C.utoa_aux (S rounds) n acc = [48].
Proof.
  revert n acc. induction rounds as [|r IH]; intros n acc Hn Hacc;
    pose proof (Z.div_mod n 10 ltac:(lia)) as Hdm;
    pose proof (Z.mod_pos_bound n 10 ltac:(lia)) as Hm.
  - change (10 ^ Z.of_nat 1) with 10 in Hn.
    simpl. destruct (Z.eqb_spec (n / 10) 0) as [Hz|Hz]; simpl.
    + intros [= Hd]. assert (n = 0) as -> by lia. by rewrite Hacc.
    + exfalso. apply Hz. apply Z.div_small. lia.
  - rewrite Nat2Z.inj_succ, Z.pow_succ_r in Hn by lia.
    change (C.utoa_aux (S (S r)) n acc)
      with (if n / 10 =? 0 then (48 + n mod 10) :: acc
            else C.utoa_aux (S r) (n / 10) ((48 + n mod 10) :: acc)).
    destruct (Z.eqb_spec (n / 10) 0) as [Hz|Hz].
    + simpl. intros [= Hd]. assert (n = 0) as -> by lia. by rewrite Hacc.
    + intros Hh. apply IH in Hh; [done| |lia].
      split; [apply Z.div_pos | apply Z.div_lt_upper_bound]; lia.
Qed.

(** [%u] prints the decimal numeral of a 32-bit value, in at most ten
    characters. *)
Lemma utoa_decimal n :
  0 ≤ n < 2 ^ 32 →
  decimal_numeral (C.utoa n) n ∧ (length (C.utoa n) ≤ 10)%nat.
Proof.
  intros Hn. unfold decimal_numeral, C.utoa.
  pose proof (utoa_aux_length 9 n []) as Hlen.
  change (length (@nil Z)) with 0%nat in Hlen.
  repeat split.
  - by apply utoa_aux_digits.
  - intros Heq. rewrite Heq in Hlen. simpl in Hlen. lia.
  - apply utoa_aux_head; [|done]. change (10 ^ Z.of_nat 10) with 10000000000. lia.
  - unfold decimal_value. rewrite utoa_aux_value; [done|].
    change (10 ^ Z.of_nat 10) with 10000000000. lia.
  - lia.
Qed.

End CStrings.

(** ** The reporter *)

Lemma spin_idle polls : Hal.spin polls = O.
Proof. by induction polls. Qed.

Lemma sprintf_u_crlf_fits dst v :
  0 ≤ v < 2 ^ 32 → length dst = 64%nat →
  ∃ rest, C.sprintf_u_crlf dst v = Some (C.utoa v ++ 13 :: 10 :: 0 :: rest) ∧
          length (C.utoa v ++ 13 :: 10 :: 0 :: rest) = 64%nat.
Proof.
  intros Hv Hdst. unfold C.sprintf_u_crlf, C.u32.
  rewrite Z.mod_small by done.
  destruct (utoa_decimal v Hv) as [_ Hlen].
  assert (length (C.utoa v ++ [13; 10; 0]%Z) ≤ length dst)%nat as Hfit.
  { rewrite length_app. simpl. lia. }
  apply Nat.leb_le in Hfit. rewrite Hfit.
  exists (drop (length (C.utoa v ++ [13; 10; 0])) dst). split.
  - by rewrite <- app_assoc.
  - rewrite length_app in *. cbn [length] in *. rewrite length_drop, length_app.
    cbn [length]. apply Nat.leb_le in Hfit. lia.
Qed.

Lemma digits_not_nul ds : Forall is_digit ds → Forall (λ x, x ≠ 0) ds.
Proof. intros H. eapply Forall_impl; [exact H|]. unfold is_digit. simpl. lia. Qed.

(** What the reporter leaves behind when the window is not empty. *)
Lemma Calculate_ADC_Average_nonempty s :
  well_typed s → sampleCount s ≠ 0 →
  ∃ rest,
    exec Calculate_ADC_Average s =
    Some (let line := C.utoa (adcSum s / sampleCount s) ++ [13; 10] in
          set_txBusy (length line)
            (set_uartTx (uartTx s ++ [line])
               (set_txBuffer (line ++ 0 :: rest)
                  (set_txBusy O
                     (set_dataReady false
                        (set_sampleCount 0 (set_adcSum 0 s))))))) ∧
    length (C.utoa (adcSum s / sampleCount s) ++ 13 :: 10 :: 0 :: rest) = 64%nat.
Proof.
  intros (Hsum & Hcnt & Htx) Hnz. destruct s; simpl in *.
  assert (0 ≤ adcSum0 / sampleCount0 < 2 ^ 32) as Hq.
  { split; [apply Z.div_pos; lia|].
    apply Z.div_lt_upper_bound; [lia|]. nia. }
  destruct (sprintf_u_crlf_fits txBuffer0 _ Hq Htx) as (rest & Hsp & Hlen).
  exists rest. split; [|done].
  unfold Calculate_ADC_Average. run_monad.
  cbn -[Z.div Z.eqb C.sprintf_u_crlf C.strlen C.utoa].
  unfold C.udiv. destruct (Z.eqb_spec sampleCount0 0) as [|_]; [done|].
  cbn -[Z.div Z.eqb C.sprintf_u_crlf C.strlen C.utoa].
  rewrite Hsp.
  change (C.utoa (adcSum0 / sampleCount0) ++ 13 :: 10 :: 0 :: rest)
    with (C.utoa (adcSum0 / sampleCount0) ++ [13; 10] ++ 0 :: rest) in *.
  rewrite app_assoc in *.
  rewrite strlen_app; last first.
  { apply Forall_app. split.
    - apply digits_not_nul, utoa_decimal, Hq.
    - repeat constructor; lia. }
  cbn -[Z.div Z.eqb C.sprintf_u_crlf C.strlen C.utoa Z.of_nat Z.to_nat].
  rewrite spin_idle, Nat2Z.id, take_app_length.
  replace ((0 <=? _) && _) with true; [done|].
  symmetry. apply andb_true_iff. split; [apply Z.leb_le | apply Z.leb_le].
  - lia.
  - rewrite (length_app _ (0 :: rest)). lia.
Qed.

(** C1. For every call of [Calculate_ADC_Average] with a non-zero snapshotted
    count, the text handed to the UART is the decimal numeral of the floor
    quotient of the snapshotted sum by the snapshotted count, followed by
    CR LF; the accumulators are left reset. *)
Theorem Calculate_ADC_Average_floor_mean s :
  well_typed s → sampleCount s ≠ 0 →
  ∃ s', exec Calculate_ADC_Average s = Some s' ∧
        uartTx s' = uartTx s ++ [C.utoa (adcSum s / sampleCount s) ++ [13; 10]] ∧
        decimal_numeral (C.utoa (adcSum s / sampleCount s))
                        (adcSum s / sampleCount s) ∧
        adcSum s' = 0 ∧ sampleCount s' = 0 ∧ dataReady s' = false.
Proof.
  intros Hwt Hnz.
  destruct (Calculate_ADC_Average_nonempty s Hwt Hnz) as (rest & Hexec & _).
  eexists. split; [exact Hexec|]. cbn.
  split; [done|]. split; [|done].
  destruct Hwt as (Hsum & Hcnt & _).
  apply utoa_decimal. split; [apply Z.div_pos; lia|].
  apply Z.div_lt_upper_bound; [lia|]. nia.
Qed.

(** The two windows of the specification: samples 10, 20, 30 are reported
    as "20", samples 10, 21, 10 (sum 41) as "13". *)
Lemma Calculate_ADC_Average_floor_mean_scenarios :
  (scenario [10; 20; 30] = Some (the_state (scenario [10; 20; 30])) ∧
   well_typed (the_state (scenario [10; 20; 30])) ∧
   sampleCount (the_state (scenario [10; 20; 30])) ≠ 0 ∧
   ∃ s', exec Calculate_ADC_Average (the_state (scenario [10; 20; 30])) = Some s' ∧
         uartTx s' = [msg_READY; ack_START; C.chars "20" ++ [13; 10]] ∧
         decimal_numeral (C.chars "20") 20 ∧
         adcSum s' = 0 ∧ sampleCount s' = 0 ∧ dataReady s' = false) ∧
  (scenario [10; 21; 10] = Some (the_state (scenario [10; 21; 10])) ∧
   well_typed (the_state (scenario [10; 21; 10])) ∧
   sampleCount (the_state (scenario [10; 21; 10])) ≠ 0 ∧
   ∃ s', exec Calculate_ADC_Average (the_state (scenario [10; 21; 10])) = Some s' ∧
         uartTx s' = [msg_READY; ack_START; C.chars "13" ++ [13; 10]] ∧
         decimal_numeral (C.chars "13") 13 ∧
         adcSum s' = 0 ∧ sampleCount s' = 0 ∧ dataReady s' = false).
Proof.
  split.
  - assert (well_typed (the_state (scenario [10; 20; 30]))) as Hwt
      by (unfold well_typed; vm_compute; repeat split; congruence).
    assert (sampleCount (the_state (scenario [10; 20; 30])) ≠ 0) as Hnz
      by (vm_compute; congruence).
    split; [vm_compute; reflexivity|]. split; [exact Hwt|]. split; [exact Hnz|].
    exact (Calculate_ADC_Average_floor_mean _ Hwt Hnz).
  - assert (well_typed (the_state (scenario [10; 21; 10]))) as Hwt
      by (unfold well_typed; vm_compute; repeat split; congruence).
    assert (sampleCount (the_state (scenario [10; 21; 10])) ≠ 0) as Hnz
      by (vm_compute; congruence).
    split; [vm_compute; reflexivity|]. split; [exact Hwt|]. split; [exact Hnz|].
    exact (Calculate_ADC_Average_floor_mean _ Hwt Hnz).
Defined.

(** C5. With a snapshotted count of zero [Calculate_ADC_Average] returns
    normally after the snapshot-and-reset: nothing is formatted, nothing is
    handed to the UART, the transmitter is not polled, and the division,
    which would be undefined, is not evaluated. *)
Theorem Calculate_ADC_Average_empty_window s :
  sampleCount s = 0 →
  exec Calculate_ADC_Average s =
    Some (set_dataReady false (set_sampleCount 0 (set_adcSum 0 s))) ∧
  C.udiv (adcSum s) (sampleCount s) = None ∧
  ∀ s', exec Calculate_ADC_Average s = Some s' →
        uartTx s' = uartTx s ∧ txBuffer s' = txBuffer s ∧ txBusy s' = txBusy s.
Proof.
  intros Hz.
  assert (exec Calculate_ADC_Average s =
          Some (set_dataReady false (set_sampleCount 0 (set_adcSum 0 s)))) as Hexec.
  { destruct s; simpl in *. subst. reflexivity. }
  split; [exact Hexec|]. split.
  - rewrite Hz. reflexivity.
  - intros s' Hs'. rewrite Hexec in Hs'. injection Hs' as <-. done.
Qed.

Lemma Calculate_ADC_Average_empty_window_at_boot :
  sampleCount (the_state booted) = 0 ∧
  exec Calculate_ADC_Average (the_state booted) =
    Some (set_dataReady false (set_sampleCount 0 (set_adcSum 0 (the_state booted)))) ∧
  C.udiv (adcSum (the_state booted)) (sampleCount (the_state booted)) = None ∧
  ∀ s', exec Calculate_ADC_Average (the_state booted) = Some s' →
        uartTx s' = uartTx (the_state booted) ∧
        txBuffer s' = txBuffer (the_state booted) ∧
        txBusy s' = txBusy (the_state booted).
Proof.
  split; [reflexivity|].
  apply (Calculate_ADC_Average_empty_window (the_state booted)). reflexivity.
Defined.

(** ** The sample accumulator *)

Lemma ADC_Callback_when_disabled context s :
  adcEnabled s = false →
  exec (ADC_Callback context) s = Some (set_adcIF false s).
Proof. intros H. destruct s; simpl in *; subst. reflexivity. Qed.

Lemma ADC_Callback_when_enabled context s :
  adcEnabled s = true →
  exec (ADC_Callback context) s =
    Some (let count := C.u32 (sampleCount s + 1) in
          (if ADC_SAMPLE_COUNT <=? count then set_dataReady true else id)
            (set_sampleCount count
               (set_adcSum (C.u32 (adcSum s + adcResult0 s))
                  (set_adcIF false s)))).
Proof.
  intros H. destruct s; simpl in *; subst.
  unfold ADC_Callback. run_monad. cbn -[C.u32 Z.leb].
  by destruct (ADC_SAMPLE_COUNT <=? _).
Qed.

Lemma run_app tr1 tr2 s :
  run (tr1 ++ tr2) s = run tr1 s ≫= run tr2.
Proof.
  revert s. induction tr1 as [|e tr1 IH]; intros s; simpl; [done|].
  destruct (fire e s); [apply IH|done].
Qed.

(** Within one window the sum is the exact sum of the samples, for every
    sample bound [m] with [ADC_SAMPLE_COUNT * m] below [2 ^ 32]. *)
Lemma accumulate_exact m l s :
  ADC_SAMPLE_COUNT * m < 2 ^ 32 →
  adcEnabled s = true →
  0 ≤ sampleCount s → 0 ≤ adcSum s ≤ sampleCount s * m →
  sampleCount s + Z.of_nat (length l) ≤ ADC_SAMPLE_COUNT →
  Forall (λ x, 0 ≤ x ≤ m) l →
  ∃ s', run (samples_of l) s = Some s' ∧
        adcSum s' = adcSum s + total l ∧
        sampleCount s' = sampleCount s + Z.of_nat (length l) ∧
        adcEnabled s' = true ∧
        0 ≤ total l ≤ Z.of_nat (length l) * m.
Proof.
  intros Hm. revert s. induction l as [|x l IH]; intros s Hen Hc Hs Hlen Hl.
  - exists s. simpl. repeat split; try done; lia.
  - apply Forall_cons in Hl as [Hx Hl].
    cbn [length] in Hlen. rewrite Nat2Z.inj_succ in Hlen.
    unfold ADC_SAMPLE_COUNT in *.
    cbn [samples_of fmap list_fmap run fire].
    rewrite ADC_Callback_when_enabled by done.
    cbn -[C.u32 Z.leb Z.mul Z.add Z.of_nat].
    unfold C.u32. rewrite !Z.mod_small by nia.
    set (s1 := (if _ <=? _ then _ else _) _).
    assert (adcEnabled s1 = true ∧ sampleCount s1 = sampleCount s + 1 ∧
            adcSum s1 = adcSum s + x) as (Hen1 & Hc1 & Hs1).
    { unfold s1. destruct (_ <=? _); destruct s; simpl in *; done. }
    destruct (IH s1) as (s' & Hrun & Hsum & Hcnt & Hen' & Htot);
      [done|lia|nia|lia|done|].
    exists s'. split; [exact Hrun|].
    cbn [total foldr length]. fold (total l). rewrite Nat2Z.inj_succ.
    repeat split; try done; nia.
Qed.

(** C9. While [adcEnabled] is false, [ADC_Callback] only clears the ADC
    interrupt flag: [adcSum], [sampleCount] and [dataReady] keep their
    values, whatever the converted sample is. *)
Theorem ADC_Callback_disabled_frame context s :
  adcEnabled s = false →
  exec (ADC_Callback context) s = Some (set_adcIF false s) ∧
  ∀ sample, ∃ s',
    fire (Conversion sample) s = Some s' ∧
    adcSum s' = adcSum s ∧ sampleCount s' = sampleCount s ∧
    dataReady s' = dataReady s ∧ adcIF s' = false.
Proof.
  intros Hoff. split; [by apply ADC_Callback_when_disabled|].
  intros sample. eexists. split.
  - cbn [fire]. by apply ADC_Callback_when_disabled.
  - done.
Qed.

Lemma ADC_Callback_disabled_frame_at_boot :
  adcEnabled (the_state booted) = false ∧
  exec (ADC_Callback 0) (the_state booted) =
    Some (set_adcIF false (the_state booted)) ∧
  ∀ sample, ∃ s',
    fire (Conversion sample) (the_state booted) = Some s' ∧
    adcSum s' = adcSum (the_state booted) ∧
    sampleCount s' = sampleCount (the_state booted) ∧
    dataReady s' = dataReady (the_state booted) ∧ adcIF s' = false.
Proof.
  split; [reflexivity|].
  apply (ADC_Callback_disabled_frame 0 (the_state booted)). reflexivity.
Defined.

(** C10. [ADC_SAMPLE_COUNT] times the largest sample fits in 32 bits, and
    for every sample bound [m] with [ADC_SAMPLE_COUNT * m] below [2 ^ 32]:
    in a window of at most [ADC_SAMPLE_COUNT] samples, each at most [m], the
    32-bit [adcSum] is at every point the exact sum of the samples received
    so far. *)
Theorem adcSum_exact_within_window m l s :
  0 ≤ m → ADC_SAMPLE_COUNT * m < 2 ^ 32 →
  adcEnabled s = true → adcSum s = 0 → sampleCount s = 0 →
  Z.of_nat (length l) ≤ ADC_SAMPLE_COUNT →
  Forall (λ x, 0 ≤ x ≤ m) l →
  ADC_SAMPLE_COUNT * ADC_MAX_RESULT < 2 ^ 32 ∧
  ∀ k, ∃ s',
    run (samples_of (take k l)) s = Some s' ∧
    adcSum s' = total (take k l) ∧
    sampleCount s' = Z.of_nat (length (take k l)) ∧
    total (take k l) ≤ ADC_SAMPLE_COUNT * m ∧
    ADC_SAMPLE_COUNT * m < 2 ^ 32.
Proof.
  intros Hm0 Hm Hen Hsum Hcnt Hlen Hl. split; [done|]. intros k.
  assert (Z.of_nat (length (take k l)) ≤ Z.of_nat (length l)) as Hk
    by (rewrite length_take; lia).
  destruct (accumulate_exact m (take k l) s)
    as (s' & Hrun & Hs' & Hc' & _ & Htot).
  - done.
  - done.
  - lia.
  - rewrite Hsum, Hcnt. lia.
  - lia.
  - by apply Forall_take.
  - exists s'. rewrite Hs', Hc', Hsum, Hcnt.
    split_and!; try done; try lia.
    unfold ADC_SAMPLE_COUNT in *. nia.
Qed.

Lemma adcSum_exact_within_window_full_scale :
  0 ≤ ADC_MAX_RESULT ∧
  ADC_SAMPLE_COUNT * ADC_MAX_RESULT < 2 ^ 32 ∧
  adcEnabled (the_state (scenario [])) = true ∧
  adcSum (the_state (scenario [])) = 0 ∧
  sampleCount (the_state (scenario [])) = 0 ∧
  Z.of_nat (length (replicate 1200 1023)) ≤ ADC_SAMPLE_COUNT ∧
  Forall (λ x, 0 ≤ x ≤ ADC_MAX_RESULT) (replicate 1200 1023) ∧
  ∀ k, ∃ s',
    run (samples_of (take k (replicate 1200 1023))) (the_state (scenario [])) = Some s' ∧
    adcSum s' = total (take k (replicate 1200 1023)) ∧
    sampleCount s' = Z.of_nat (length (take k (replicate 1200 1023))) ∧
    total (take k (replicate 1200 1023)) ≤ ADC_SAMPLE_COUNT * ADC_MAX_RESULT ∧
    ADC_SAMPLE_COUNT * ADC_MAX_RESULT < 2 ^ 32.
Proof.
  assert (ADC_SAMPLE_COUNT * ADC_MAX_RESULT < 2 ^ 32) as Hfit by reflexivity.
  assert (Forall (λ x, 0 ≤ x ≤ ADC_MAX_RESULT) (replicate 1200 1023)) as Hall.
  { apply Forall_replicate. unfold ADC_MAX_RESULT. lia. }
  assert (Z.of_nat (length (replicate 1200 1023)) ≤ ADC_SAMPLE_COUNT) as Hlen.
  { rewrite length_replicate. unfold ADC_SAMPLE_COUNT. lia. }
  assert (0 ≤ ADC_MAX_RESULT) as Hpos by (unfold ADC_MAX_RESULT; lia).
  split; [exact Hpos|]. split; [exact Hfit|].
  split; [reflexivity|]. split; [reflexivity|]. split; [reflexivity|].
  split; [exact Hlen|]. split; [exact Hall|].
  exact (proj2 (adcSum_exact_within_window ADC_MAX_RESULT (replicate 1200 1023)
                  (the_state (scenario [])) Hpos Hfit eq_refl eq_refl eq_refl
                  Hlen Hall)).
Defined.

(** ** The command recognizer *)

Lemma printable_test b : printable b → (32 <=? b) && (b <=? 126) = true.
Proof.
  unfold printable. intros H. apply andb_true_iff.
  split; apply Z.leb_le; lia.
Qed.

Lemma printable_not_nul l : Forall printable l → Forall (λ x, x ≠ 0) l.
Proof.
  intros H. eapply Forall_impl; [exact H|]. unfold printable. simpl. lia.
Qed.

Lemma store_first a v :
  (0 < length a)%nat → C.store a 0 v = Some (<[0%nat := v]> a).
Proof.
  intros H. unfold C.store.
  assert ((0 <? Z.of_nat (length a)) = true) as -> by (apply Z.ltb_lt; lia).
  done.
Qed.

Lemma UART_RX_Callback_printable context s line :
  rx_holds s line → printable (rxByte s) →
  ∃ rest,
    length (line ++ rxByte s :: 0 :: rest) = 16%nat ∧
    exec (UART_RX_Callback context) s =
      Some (recognized line (rxByte s) (line ++ rxByte s :: 0 :: rest) s).
Proof.
  intros (Hlen & Hidx & Hlt & Hpr & rest0 & Hbuf) Hb.
  destruct s; simpl in *; subst.
  rewrite length_app in Hlen.
  destruct rest0 as [|r0 [|r1 rest]]; simpl in Hlen; [lia|lia|].
  exists rest. split; [rewrite length_app; simpl; lia|].
  unfold UART_RX_Callback, rx_store, rx_strcmp. run_monad. rx_cbn.
  rewrite (printable_test _ Hb). rx_cbn.
  assert ((Z.of_nat (length line) <? sizeof_rxBuffer - 1) = true) as ->
    by (apply Z.ltb_lt; unfold sizeof_rxBuffer; lia).
  rx_cbn. rewrite store_at_length. rx_cbn.
  assert (C.u8 (Z.of_nat (length line) + 1) =
          Z.of_nat (length (line ++ [rxByte0]))) as Hu8.
  { unfold C.u8. rewrite length_app. simpl. rewrite Z.mod_small; lia. }
  rewrite Hu8.
  replace (line ++ rxByte0 :: r1 :: rest)
    with ((line ++ [rxByte0]) ++ r1 :: rest) by (by rewrite <- app_assoc).
  replace (line ++ rxByte0 :: 0 :: rest)
    with ((line ++ [rxByte0]) ++ 0 :: rest) by (by rewrite <- app_assoc).
  rewrite store_at_length. rx_cbn.
  assert (Forall (λ x, x ≠ 0) (line ++ [rxByte0])) as Hnz.
  { apply printable_not_nul, Forall_app. split; [done|]. by constructor. }
  unfold recognized.
  destruct (strcmp_texts (line ++ [rxByte0]) rest txt_START Hnz)
    as (r & Hr & Hiff); [repeat constructor; lia|].
  change (txt_START ++ [0]) with C.lit_START in Hr. rewrite Hr. rx_cbn.
  destruct (Z.eqb_spec r 0) as [Hr0|Hr0].
  { apply Hiff in Hr0. rewrite decide_True by done.
    rx_cbn. rewrite store_first by (rewrite !length_app; simpl; lia).
    rx_cbn. rewrite spin_idle. reflexivity. }
  rewrite decide_False by (intros Heq; apply Hr0, Hiff, Heq).
  clear r Hr Hiff Hr0. rx_cbn.
  destruct (strcmp_texts (line ++ [rxByte0]) rest txt_STOP Hnz)
    as (r & Hr & Hiff); [repeat constructor; lia|].
  change (txt_STOP ++ [0]) with C.lit_STOP in Hr. rewrite Hr. rx_cbn.
  destruct (Z.eqb_spec r 0) as [Hr0|Hr0].
  { apply Hiff in Hr0. rewrite decide_True by done.
    rx_cbn. rewrite store_first by (rewrite !length_app; simpl; lia).
    rx_cbn. rewrite spin_idle. reflexivity. }
  rewrite decide_False by (intros Heq; apply Hr0, Hiff, Heq).
  clear r Hr Hiff Hr0. rx_cbn.
  destruct (decide (length (line ++ [rxByte0]) = 15%nat)) as [Hfull|Hroom].
  - assert ((sizeof_rxBuffer - 1 <=? Z.of_nat (length (line ++ [rxByte0]))) = true)
      as -> by (apply Z.leb_le; unfold sizeof_rxBuffer; lia).
    rx_cbn. rewrite store_first by (rewrite !length_app; simpl; lia).
    reflexivity.
  - assert ((sizeof_rxBuffer - 1 <=? Z.of_nat (length (line ++ [rxByte0]))) = false)
      as -> by (apply Z.leb_gt; unfold sizeof_rxBuffer;
                rewrite length_app in *; simpl in *; lia).
    reflexivity.
Qed.

Lemma UART_RX_Callback_nonprintable context s :
  ¬ printable (rxByte s) →
  exec (UART_RX_Callback context) s = Some (set_rxArmed true s).
Proof.
  intros Hb. destruct s; simpl in *.
  unfold UART_RX_Callback. run_monad. rx_cbn.
  assert ((32 <=? rxByte0) && (rxByte0 <=? 126) = false) as ->.
  { apply andb_false_iff. unfold printable in Hb.
    destruct (Z.leb_spec 32 rxByte0); [right|by left].
    apply Z.leb_gt. lia. }
  reflexivity.
Qed.

(** The interrupt overwrites [rxByte] and consumes the pending read, so
    their earlier values do not matter to it. *)
Lemma fire_Received_forgets b a b' s :
  fire (Received b) (set_rxArmed a (set_rxByte b' s)) = fire (Received b) s.
Proof. by destruct s. Qed.

Lemma run_bytes_cons b w s :
  run (bytes_of (b :: w)) s = fire (Received b) s ≫= run (bytes_of w).
Proof. reflexivity. Qed.

Lemma run_bytes_forgets w a b' s :
  w ≠ [] →
  run (bytes_of w) (set_rxArmed a (set_rxByte b' s)) = run (bytes_of w) s.
Proof.
  destruct w as [|b w]; [done|]. intros _.
  by rewrite !run_bytes_cons, fire_Received_forgets.
Qed.

Lemma run_nonprintable ctl s :
  Forall (λ b, ¬ printable b) ctl →
  ∃ a b, run (bytes_of ctl) s = Some (set_rxArmed a (set_rxByte b s)).
Proof.
  intros Hctl. revert s. induction Hctl as [|c ctl Hc _ IH]; intros s.
  - exists (rxArmed s), (rxByte s). by destruct s.
  - rewrite run_bytes_cons. cbn [fire].
    rewrite UART_RX_Callback_nonprintable by (by destruct s).
    destruct (IH (set_rxArmed true (set_rxArmed false (set_rxByte c s))))
      as (a & b & Hrun).
    exists a, b. cbn [mbind option_bind]. rewrite Hrun. by destruct s.
Qed.

Lemma recognized_holds line b rest s :
  length (line ++ b :: 0 :: rest) = 16%nat →
  Forall printable line → printable b →
  rx_holds (recognized line b (line ++ b :: 0 :: rest) s) (next_line line b).
Proof.
  intros Hlen Hline Hb. unfold recognized, next_line, is_command.
  assert (length (<[0%nat:=0]> (line ++ b :: 0 :: rest)) = 16%nat) as Hlen0
    by (by rewrite length_insert).
  assert (length (line ++ [b]) = S (length line)) as Hlen1
    by (rewrite length_app; simpl; lia).
  rewrite length_app in Hlen. cbn [length] in Hlen.
  destruct (decide (line ++ [b] = txt_START)) as [Hs|Hs].
  { rewrite (decide_True (P := _ ∨ _)) by (by left). unfold rx_holds. destruct s; simpl.
    repeat split; [done|lia|done|]. eexists. reflexivity. }
  destruct (decide (line ++ [b] = txt_STOP)) as [Hp|Hp].
  { rewrite (decide_True (P := _ ∨ _)) by (by right). unfold rx_holds. destruct s; simpl.
    repeat split; [done|lia|done|]. eexists. reflexivity. }
  rewrite (decide_False (P := _ ∨ _)) by (by intros [?|?]).
  destruct (decide (length (line ++ [b]) = 15%nat)) as [Hfull|Hroom].
  { unfold rx_holds. destruct s; simpl.
    repeat split; [done|lia|done|]. eexists. reflexivity. }
  unfold rx_holds. destruct s; simpl.
  repeat split.
  - rewrite length_app. simpl. lia.
  - lia.
  - apply Forall_app. split; [done|]. by constructor.
  - exists (0 :: rest). by rewrite <- app_assoc.
Qed.

Lemma fire_Received_printable s line b :
  rx_holds s line → printable b →
  ∃ rest,
    length (line ++ b :: 0 :: rest) = 16%nat ∧
    fire (Received b) s =
      Some (recognized line b (line ++ b :: 0 :: rest)
              (set_rxArmed false (set_rxByte b s))).
Proof.
  intros Hs Hb.
  destruct (UART_RX_Callback_printable 0 (set_rxArmed false (set_rxByte b s)) line)
    as (rest & Hlen & Hexec).
  - destruct Hs as (? & ? & ? & ? & ?). by destruct s.
  - by destruct s.
  - exists rest. split; [by destruct s|].
    cbn [fire]. rewrite Hexec. by destruct s.
Qed.

Lemma quiet_trans s1 s2 s3 : quiet s1 s2 → quiet s2 s3 → quiet s1 s3.
Proof. unfold quiet. intros ? ?. repeat split; intuition congruence. Qed.

Lemma rx_empty_holds s : rx_empty s → rx_holds s [].
Proof.
  intros (Hi & _ & Hl). unfold rx_holds. simpl.
  repeat split; [done|done|lia|done|]. by exists (rxBuffer s).
Qed.

Lemma recognized_quiet line b buf s :
  ¬ is_command (line ++ [b]) → quiet s (recognized line b buf s).
Proof.
  intros Hno. unfold recognized, is_command in *.
  rewrite (decide_False (P := _ = txt_START)) by (intros ?; apply Hno; by left).
  rewrite (decide_False (P := _ = txt_STOP)) by (intros ?; apply Hno; by right).
  by destruct (decide _); destruct s.
Qed.

Lemma recognized_cleared line b buf s :
  length buf = 16%nat →
  is_command (line ++ [b]) ∨ length (line ++ [b]) = 15%nat →
  rx_empty (recognized line b buf s).
Proof.
  intros Hlen Hc. unfold recognized, rx_empty.
  assert (<[0%nat:=0]> buf !! 0%nat = Some 0) as H0
    by (apply list_lookup_insert_eq; lia).
  assert (length (<[0%nat:=0]> buf) = 16%nat) as Hl0 by (by rewrite length_insert).
  destruct (decide (line ++ [b] = txt_START)); [by destruct s|].
  destruct (decide (line ++ [b] = txt_STOP)); [by destruct s|].
  destruct (decide (length (line ++ [b]) = 15%nat)); [by destruct s|].
  by destruct Hc as [[?|?]|?].
Qed.

(** Printable bytes that never complete a command are stored; the byte that
    fills the fifteenth place empties the buffer. Nothing else changes. *)
Lemma run_bytes_unmatched w : ∀ s line,
  rx_holds s line → Forall printable w →
  (length line + length w ≤ 15)%nat →
  Forall (λ text, ¬ is_command text) (texts_seen line w) →
  ∃ s', run (bytes_of w) s = Some s' ∧ quiet s s' ∧
        if decide (length line + length w = 15)%nat
        then rx_empty s'
        else rx_holds s' (line ++ w).
Proof.
  induction w as [|b w IH]; intros s line Hs Hw Hlen Hseen.
  - exists s. split; [done|]. split; [done|].
    destruct Hs as (? & ? & Hlt & ? & ?).
    rewrite decide_False by (simpl; lia). by rewrite app_nil_r.
  - apply Forall_cons in Hw as [Hb Hw].
    cbn [texts_seen] in Hseen. apply Forall_cons in Hseen as [Hno Hseen].
    cbn [length] in Hlen.
    destruct (fire_Received_printable s line b Hs Hb) as (rest & Hbuf & Hfire).
    rewrite run_bytes_cons, Hfire. cbn [mbind option_bind].
    set (s0 := set_rxArmed false (set_rxByte b s)) in *.
    assert (quiet s (recognized line b (line ++ b :: 0 :: rest) s0)) as Hq.
    { pose proof (recognized_quiet line b (line ++ b :: 0 :: rest) s0 Hno) as Hq.
      unfold quiet in *. by destruct s. }
    pose proof (recognized_holds line b rest s0 Hbuf) as Hnext.
    destruct Hs as (_ & _ & Hlt & Hline & _).
    specialize (Hnext Hline Hb).
    assert (length (line ++ [b]) = S (length line)) as Hlen1
      by (rewrite length_app; simpl; lia).
    destruct (decide (length (line ++ [b]) = 15%nat)) as [Hfull|Hroom].
    + destruct w as [|]; [|simpl in Hlen; lia].
      eexists. split; [reflexivity|]. split; [exact Hq|].
      rewrite decide_True by (simpl; lia).
      apply recognized_cleared; [done|by right].
    + unfold next_line in Hnext.
      rewrite decide_False in Hnext by done.
      rewrite decide_False in Hnext by done.
      destruct (IH _ _ Hnext Hw) as (s' & Hrun & Hq' & Hfinal);
        [lia|done|].
      exists s'. split; [exact Hrun|]. split.
      { by apply (quiet_trans _ _ _ Hq). }
      rewrite Hlen1 in Hfinal. cbn [length].
      replace (length line + S (length w))%nat
        with (S (length line) + length w)%nat by lia.
      destruct (decide _); [done|]. by rewrite <- app_assoc in Hfinal.
Qed.

Lemma bytes_of_app w1 w2 : bytes_of (w1 ++ w2) = bytes_of w1 ++ bytes_of w2.
Proof. apply fmap_app. Qed.

Lemma command_last_printable line b text :
  Forall printable text → line ++ [b] = text → printable b.
Proof.
  intros Htext <-. apply Forall_app in Htext as [_ Hb].
  by inversion Hb.
Qed.

Lemma txt_START_printable : Forall printable txt_START.
Proof. repeat constructor; unfold printable; lia. Qed.

Lemma txt_STOP_printable : Forall printable txt_STOP.
Proof. repeat constructor; unfold printable; lia. Qed.

(** The byte that completes "START". *)
Lemma UART_RX_Callback_START context s line :
  rx_holds s line → line ++ [rxByte s] = txt_START →
  ∃ s', exec (UART_RX_Callback context) s = Some s' ∧
        adcEnabled s' = true ∧ rx_empty s' ∧ rxArmed s' = true ∧
        uartTx s' = uartTx s ++ [ack_START] ∧
        adcSum s' = adcSum s ∧ sampleCount s' = sampleCount s ∧
        dataReady s' = dataReady s.
Proof.
  intros Hs Htext.
  pose proof (command_last_printable _ _ _ txt_START_printable Htext) as Hb.
  destruct (UART_RX_Callback_printable context s line Hs Hb)
    as (rest & Hlen & Hexec).
  eexists. split; [exact Hexec|].
  split; [|split; [apply recognized_cleared; [done|by left; left]|]];
    unfold recognized; rewrite decide_True by done; by destruct s.
Qed.

(** The byte that completes "STOP". *)
Lemma UART_RX_Callback_STOP context s line :
  rx_holds s line → line ++ [rxByte s] = txt_STOP →
  ∃ s', exec (UART_RX_Callback context) s = Some s' ∧
        adcEnabled s' = false ∧ rx_empty s' ∧ rxArmed s' = true ∧
        uartTx s' = uartTx s ++ [ack_STOP] ∧
        adcSum s' = 0 ∧ sampleCount s' = 0 ∧ dataReady s' = false.
Proof.
  intros Hs Htext.
  pose proof (command_last_printable _ _ _ txt_STOP_printable Htext) as Hb.
  destruct (UART_RX_Callback_printable context s line Hs Hb)
    as (rest & Hlen & Hexec).
  eexists. split; [exact Hexec|].
  split; [|split; [apply recognized_cleared; [done|by left; right]|]];
    unfold recognized;
    rewrite (decide_False (P := _ = txt_START)) by (by rewrite Htext);
    rewrite decide_True by done; by destruct s.
Qed.

(** C3. When the received printable byte makes the buffer read exactly
    "STOP", the recognizer clears [adcEnabled], resets [adcSum],
    [sampleCount] and [dataReady], empties the line buffer, writes
    "OK_STOP\r\n" and re-arms the receiver; on accumulators that are already
    zero and false this changes nothing but the acknowledgement. *)
Theorem UART_RX_Callback_STOP_resets context s line :
  rx_holds s line → line ++ [rxByte s] = txt_STOP →
  ∃ s', exec (UART_RX_Callback context) s = Some s' ∧
        adcEnabled s' = false ∧
        adcSum s' = 0 ∧ sampleCount s' = 0 ∧ dataReady s' = false ∧
        rx_empty s' ∧
        uartTx s' = uartTx s ++ [ack_STOP] ∧
        rxArmed s' = true ∧
        (adcSum s = 0 → sampleCount s = 0 → dataReady s = false →
         adcSum s' = adcSum s ∧ sampleCount s' = sampleCount s ∧
         dataReady s' = dataReady s).
Proof.
  intros Hs Htext.
  destruct (UART_RX_Callback_STOP context s line Hs Htext)
    as (s' & Hexec & Hen & Hrx & Harm & Htx & Hsum & Hcnt & Hrdy).
  exists s'. split_and!; try done.
  intros Hs0 Hc0 Hr0. split_and!; congruence.
Qed.

Lemma UART_RX_Callback_STOP_resets_in_window :
  rx_holds before_STOP txt_STO ∧
  txt_STO ++ [rxByte before_STOP] = txt_STOP ∧
  (adcSum before_STOP, sampleCount before_STOP, adcEnabled before_STOP) = (16, 2, true) ∧
  ∃ s', exec (UART_RX_Callback 0) before_STOP = Some s' ∧
        adcEnabled s' = false ∧
        adcSum s' = 0 ∧ sampleCount s' = 0 ∧ dataReady s' = false ∧
        rx_empty s' ∧
        uartTx s' = uartTx before_STOP ++ [ack_STOP] ∧
        rxArmed s' = true ∧
        (adcSum before_STOP = 0 → sampleCount before_STOP = 0 →
         dataReady before_STOP = false →
         adcSum s' = adcSum before_STOP ∧ sampleCount s' = sampleCount before_STOP ∧
         dataReady s' = dataReady before_STOP).
Proof.
  assert (rx_holds before_STOP txt_STO) as Hs.
  { unfold rx_holds. split; [reflexivity|]. split; [reflexivity|].
    split; [simpl; lia|]. split; [repeat constructor; unfold printable; lia|].
    eexists. vm_compute. reflexivity. }
  split; [exact Hs|]. split; [reflexivity|]. split; [reflexivity|].
  exact (UART_RX_Callback_STOP_resets 0 before_STOP txt_STO Hs eq_refl).
Defined.

(** C6. A received byte outside 0x20..0x7E is dropped: the callback only
    re-arms the receiver. Buffer, index, enable flag, accumulators and the
    transmitted output are as before. *)
Theorem UART_RX_Callback_discards_nonprintable context s :
  ¬ printable (rxByte s) →
  exec (UART_RX_Callback context) s = Some (set_rxArmed true s) ∧
  ∀ s', exec (UART_RX_Callback context) s = Some s' →
        rxBuffer s' = rxBuffer s ∧ rxIndex s' = rxIndex s ∧
        adcEnabled s' = adcEnabled s ∧
        adcSum s' = adcSum s ∧ sampleCount s' = sampleCount s ∧
        dataReady s' = dataReady s ∧
        uartTx s' = uartTx s ∧ rxArmed s' = true.
Proof.
  intros Hb. pose proof (UART_RX_Callback_nonprintable context s Hb) as Hexec.
  split; [exact Hexec|].
  intros s' Hs'. rewrite Hexec in Hs'. injection Hs' as <-. by destruct s.
Qed.

Lemma UART_RX_Callback_discards_DEL :
  ¬ printable (rxByte before_DEL) ∧
  exec (UART_RX_Callback 0) before_DEL = Some (set_rxArmed true before_DEL) ∧
  ∀ s', exec (UART_RX_Callback 0) before_DEL = Some s' →
        rxBuffer s' = rxBuffer before_DEL ∧ rxIndex s' = rxIndex before_DEL ∧
        adcEnabled s' = adcEnabled before_DEL ∧
        adcSum s' = adcSum before_DEL ∧ sampleCount s' = sampleCount before_DEL ∧
        dataReady s' = dataReady before_DEL ∧
        uartTx s' = uartTx before_DEL ∧ rxArmed s' = true.
Proof.
  assert (¬ printable (rxByte before_DEL)) as Hb
    by (unfold printable; simpl; lia).
  split; [exact Hb|].
  exact (UART_RX_Callback_discards_nonprintable 0 before_DEL Hb).
Defined.

Lemma fire_Received_START s line b :
  rx_holds s line → line ++ [b] = txt_START →
  ∃ s', fire (Received b) s = Some s' ∧
        adcEnabled s' = true ∧ rx_empty s' ∧ rxArmed s' = true ∧
        uartTx s' = uartTx s ++ [ack_START] ∧
        adcSum s' = adcSum s ∧ sampleCount s' = sampleCount s ∧
        dataReady s' = dataReady s.
Proof.
  intros Hs Htext.
  destruct (UART_RX_Callback_START 0 (set_rxArmed false (set_rxByte b s)) line)
    as (s' & Hexec & Hrest).
  - destruct Hs as (? & ? & ? & ? & ?). by destruct s.
  - by destruct s.
  - exists s'. split; [exact Hexec|]. by destruct s.
Qed.

(** "START" received on an empty line. *)
Lemma run_START_from_empty s :
  rx_holds s [] →
  ∃ s', run (bytes_of txt_START) s = Some s' ∧
        adcEnabled s' = true ∧ rx_empty s' ∧ rxArmed s' = true ∧
        uartTx s' = uartTx s ++ [ack_START] ∧
        adcSum s' = adcSum s ∧ sampleCount s' = sampleCount s ∧
        dataReady s' = dataReady s.
Proof.
  intros Hs.
  change txt_START with ([83; 84; 65; 82] ++ [84]).
  rewrite bytes_of_app, run_app.
  destruct (run_bytes_unmatched [83; 84; 65; 82] s [] Hs)
    as (s1 & -> & Hq & Hs1).
  - repeat constructor; unfold printable; lia.
  - simpl. lia.
  - repeat constructor; intros [H|H]; discriminate H.
  - rewrite decide_False in Hs1 by (simpl; lia). cbn [mbind option_bind].
    destruct (fire_Received_START s1 _ 84 Hs1 eq_refl) as (s' & Hfire & Hrest).
    exists s'. rewrite run_bytes_cons, Hfire. split; [done|].
    destruct Hq as (Hq1 & Hq2 & Hq3 & _ & Hq5 & _).
    destruct Hrest as (? & ? & ? & ? & ? & ? & ?).
    split_and!; try done; congruence.
Qed.

(** C7. "START" received twice in a row on an empty line: after each
    occurrence [adcEnabled] is true and the line is empty again; each
    occurrence writes one "OK_START\r\n", two in all; [adcSum],
    [sampleCount] and [dataReady] are those of the start. *)
Theorem START_twice_is_idempotent s :
  rx_holds s [] →
  ∃ s1 s2,
    run (bytes_of txt_START) s = Some s1 ∧
    run (bytes_of txt_START) s1 = Some s2 ∧
    run (bytes_of (txt_START ++ txt_START)) s = Some s2 ∧
    adcEnabled s1 = true ∧ rx_empty s1 ∧
    uartTx s1 = uartTx s ++ [ack_START] ∧
    adcSum s1 = adcSum s ∧ sampleCount s1 = sampleCount s ∧
    dataReady s1 = dataReady s ∧
    adcEnabled s2 = true ∧ rx_empty s2 ∧
    uartTx s2 = uartTx s ++ [ack_START; ack_START] ∧
    adcSum s2 = adcSum s ∧ sampleCount s2 = sampleCount s ∧
    dataReady s2 = dataReady s.
Proof.
  intros Hs.
  destruct (run_START_from_empty s Hs)
    as (s1 & Hrun1 & Hen1 & Hrx1 & _ & Htx1 & Hsum1 & Hcnt1 & Hrdy1).
  destruct (run_START_from_empty s1 (rx_empty_holds s1 Hrx1))
    as (s2 & Hrun2 & Hen2 & Hrx2 & _ & Htx2 & Hsum2 & Hcnt2 & Hrdy2).
  exists s1, s2. split_and!; try done; try congruence.
  - by rewrite bytes_of_app, run_app, Hrun1.
  - by rewrite Htx2, Htx1, <- app_assoc.
Qed.

Lemma START_twice_in_window :
  rx_holds window_in_progress [] ∧
  (adcSum window_in_progress, sampleCount window_in_progress) = (16, 2) ∧
  ∃ s1 s2,
    run (bytes_of txt_START) window_in_progress = Some s1 ∧
    run (bytes_of txt_START) s1 = Some s2 ∧
    run (bytes_of (txt_START ++ txt_START)) window_in_progress = Some s2 ∧
    adcEnabled s1 = true ∧ rx_empty s1 ∧
    uartTx s1 = uartTx window_in_progress ++ [ack_START] ∧
    adcSum s1 = adcSum window_in_progress ∧
    sampleCount s1 = sampleCount window_in_progress ∧
    dataReady s1 = dataReady window_in_progress ∧
    adcEnabled s2 = true ∧ rx_empty s2 ∧
    uartTx s2 = uartTx window_in_progress ++ [ack_START; ack_START] ∧
    adcSum s2 = adcSum window_in_progress ∧
    sampleCount s2 = sampleCount window_in_progress ∧
    dataReady s2 = dataReady window_in_progress.
Proof.
  assert (rx_holds window_in_progress []) as Hs.
  { unfold rx_holds. split; [reflexivity|]. split; [reflexivity|].
    split; [simpl; lia|]. split; [constructor|].
    eexists. vm_compute. reflexivity. }
  split; [exact Hs|]. split; [reflexivity|].
  exact (START_twice_is_idempotent window_in_progress Hs).
Defined.

(** C8. Printable bytes that bring the line to fifteen characters without
    the buffer ever reading exactly "START" or "STOP" leave the buffer
    empty, write nothing, and leave [adcEnabled], [adcSum], [sampleCount]
    and [dataReady] as they were. *)
Theorem overflow_drops_line s line w :
  rx_holds s line → Forall printable w →
  (length line + length w = 15)%nat →
  Forall (λ text, ¬ is_command text) (texts_seen line w) →
  ∃ s', run (bytes_of w) s = Some s' ∧
        rx_empty s' ∧
        uartTx s' = uartTx s ∧
        adcEnabled s' = adcEnabled s ∧
        adcSum s' = adcSum s ∧ sampleCount s' = sampleCount s ∧
        dataReady s' = dataReady s.
Proof.
  intros Hs Hw Hlen Hseen.
  destruct (run_bytes_unmatched w s line Hs Hw) as (s' & Hrun & Hq & Hfinal);
    [lia|done|].
  rewrite decide_True in Hfinal by done.
  destruct Hq as (? & ? & ? & ? & ? & _).
  exists s'. by split_and!.
Qed.

Lemma overflow_drops_long_line :
  rx_holds (the_state (scenario [7; 9])) [] ∧
  Forall printable long_line ∧
  (length (@nil Z) + length long_line = 15)%nat ∧
  Forall (λ text, ¬ is_command text) (texts_seen [] long_line) ∧
  ∃ s', run (bytes_of long_line) (the_state (scenario [7; 9])) = Some s' ∧
        rx_empty s' ∧
        uartTx s' = uartTx (the_state (scenario [7; 9])) ∧
        adcEnabled s' = adcEnabled (the_state (scenario [7; 9])) ∧
        adcSum s' = adcSum (the_state (scenario [7; 9])) ∧
        sampleCount s' = sampleCount (the_state (scenario [7; 9])) ∧
        dataReady s' = dataReady (the_state (scenario [7; 9])).
Proof.
  assert (rx_holds (the_state (scenario [7; 9])) []) as Hs.
  { unfold rx_holds. split; [reflexivity|]. split; [reflexivity|].
    split; [simpl; lia|]. split; [constructor|].
    eexists. vm_compute. reflexivity. }
  assert (Forall printable long_line) as Hw
    by (repeat constructor; unfold printable; lia).
  assert (Forall (λ text, ¬ is_command text) (texts_seen [] long_line)) as Hseen
    by (repeat constructor; intros [H|H]; discriminate H).
  split; [exact Hs|]. split; [exact Hw|]. split; [reflexivity|].
  split; [exact Hseen|].
  exact (overflow_drops_line (the_state (scenario [7; 9])) [] long_line
           Hs Hw eq_refl Hseen).
Defined.

(** C4. The printable bytes "AB" followed by "START", with any
    non-printable bytes (CR, LF, ...) in between, are not recognized: from
    boot they leave [adcEnabled] false and write no acknowledgement, the
    buffer reading "ABSTART". The same "START" on the empty line is
    recognized, and so is a "START" sent once eight more characters have
    filled the buffer to fifteen and emptied it. *)
Theorem unmatched_prefix_blocks_START ctl :
  Forall (λ b, ¬ printable b) ctl →
  Forall printable (txt_AB ++ txt_START) ∧
  ¬ is_command (txt_AB ++ txt_START) ∧
  ∃ s0 s' s'',
    booted = Some s0 ∧
    run (bytes_of (txt_AB ++ ctl ++ txt_START)) s0 = Some s' ∧
    adcEnabled s' = false ∧ uartTx s' = uartTx s0 ∧ uartTx s0 = [msg_READY] ∧
    rx_holds s' (txt_AB ++ txt_START) ∧
    (∃ s1, run (bytes_of txt_START) s0 = Some s1 ∧ adcEnabled s1 = true) ∧
    run (bytes_of (C.chars "........" ++ txt_START)) s' = Some s'' ∧
    adcEnabled s'' = true ∧ uartTx s'' = [msg_READY; ack_START].
Proof.
  intros Hctl.
  split; [repeat constructor; unfold printable; lia|].
  split; [intros [H|H]; discriminate H|].
  exists (the_state booted), after_ABSTART,
    (the_state (run (bytes_of (C.chars "........" ++ txt_START)) after_ABSTART)).
  split; [reflexivity|]. split.
  { rewrite !bytes_of_app, !run_app.
    replace (run (bytes_of txt_AB) (the_state booted)) with (Some after_AB)
      by (vm_compute; reflexivity).
    cbn [mbind option_bind]. rewrite run_app.
    destruct (run_nonprintable ctl after_AB Hctl) as (a & b & ->).
    cbn [mbind option_bind]. rewrite run_bytes_forgets by discriminate.
    vm_compute. reflexivity. }
  split; [vm_compute; reflexivity|]. split; [vm_compute; reflexivity|].
  split; [vm_compute; reflexivity|].
  split.
  { unfold rx_holds. split; [reflexivity|]. split; [reflexivity|].
    split; [simpl; lia|]. split; [repeat constructor; unfold printable; lia|].
    eexists. vm_compute. reflexivity. }
  split; [eexists; split; vm_compute; reflexivity|].
  split; [vm_compute; reflexivity|]. split; vm_compute; reflexivity.
Qed.

Lemma unmatched_prefix_blocks_START_after_CRLF :
  Forall (λ b, ¬ printable b) [13; 10] ∧
  Forall printable (txt_AB ++ txt_START) ∧
  ¬ is_command (txt_AB ++ txt_START) ∧
  ∃ s0 s' s'',
    booted = Some s0 ∧
    run (bytes_of (txt_AB ++ [13; 10] ++ txt_START)) s0 = Some s' ∧
    adcEnabled s' = false ∧ uartTx s' = uartTx s0 ∧ uartTx s0 = [msg_READY] ∧
    rx_holds s' (txt_AB ++ txt_START) ∧
    (∃ s1, run (bytes_of txt_START) s0 = Some s1 ∧ adcEnabled s1 = true) ∧
    run (bytes_of (C.chars "........" ++ txt_START)) s' = Some s'' ∧
    adcEnabled s'' = true ∧ uartTx s'' = [msg_READY; ack_START].
Proof.
  assert (Forall (λ b, ¬ printable b) [13; 10]) as Hctl
    by (repeat constructor; unfold printable; lia).
  split; [exact Hctl|].
  exact (unmatched_prefix_blocks_START [13; 10] Hctl).
Defined.

(** ** Reachable states are well formed and no operation faults *)

Lemma well_typed_recognized line b buf s :
  well_typed s → well_typed (recognized line b buf s).
Proof.
  unfold well_typed, recognized. intros (Hs & Hc & Ht).
  repeat destruct (decide _); destruct s; simpl in *; split_and!; done || lia.
Qed.

Lemma Calculate_ADC_Average_sound s :
  sound s → ∃ s', exec Calculate_ADC_Average s = Some s' ∧ sound s'.
Proof.
  intros [Hwt (line & Hrx)].
  destruct (decide (sampleCount s = 0)) as [Hz|Hnz].
  - eexists. split.
    + destruct s; simpl in *; subst. reflexivity.
    + destruct Hwt as (Hs & Hc & Ht). split.
      * unfold well_typed. by destruct s.
      * exists line. unfold rx_holds in *. by destruct s.
  - destruct (Calculate_ADC_Average_nonempty s Hwt Hnz) as (rest & -> & Hlen).
    eexists. split; [reflexivity|].
    destruct Hwt as (Hs & Hc & Ht). split.
    + unfold well_typed. destruct s; cbn -[C.utoa Z.div Z.pow] in *.
      split; [done|]. split; [done|].
      rewrite <- app_assoc. exact Hlen.
    + exists line. unfold rx_holds in *. by destruct s.
Qed.

Lemma fire_sound e s : sound s → ∃ s', fire e s = Some s' ∧ sound s'.
Proof.
  intros Hsound. destruct e as [sample|b| |]; cbn [fire].
  - destruct Hsound as [(Hs & Hc & Ht) (line & Hrx)].
    destruct (adcEnabled s) eqn:Hen.
    + rewrite ADC_Callback_when_enabled by (by destruct s).
      eexists. split; [reflexivity|]. split.
      * unfold well_typed, C.u32.
        pose proof (Z.mod_pos_bound (sampleCount s + 1) (2 ^ 32) ltac:(lia)).
        pose proof (Z.mod_pos_bound (adcSum s + sample) (2 ^ 32) ltac:(lia)).
        destruct (ADC_SAMPLE_COUNT <=? _); by destruct s.
      * exists line. unfold rx_holds in *.
        destruct (ADC_SAMPLE_COUNT <=? _); by destruct s.
    + rewrite ADC_Callback_when_disabled by (by destruct s).
      eexists. split; [reflexivity|]. split.
      * unfold well_typed. by destruct s.
      * exists line. unfold rx_holds in *. by destruct s.
  - destruct Hsound as [Hwt (line & Hrx)].
    destruct (decide (printable b)) as [Hb|Hb].
    + destruct (fire_Received_printable s line b Hrx Hb) as (rest & Hlen & Hfire).
      cbn [fire] in Hfire. rewrite Hfire. eexists. split; [reflexivity|]. split.
      * apply well_typed_recognized. unfold well_typed in *. by destruct s.
      * eexists. apply recognized_holds; [done| |done].
        by destruct Hrx as (_ & _ & _ & ? & _).
    + rewrite UART_RX_Callback_nonprintable by (by destruct s).
      eexists. split; [reflexivity|]. split.
      * unfold well_typed in *. by destruct s.
      * exists line. unfold rx_holds in *. by destruct s.
  - unfold main_loop_body, exec, mbind, M_bind, get.
    destruct (dataReady s).
    + by apply Calculate_ADC_Average_sound.
    + by exists s.
  - by apply Calculate_ADC_Average_sound.
Qed.

Lemma booted_sound s : booted = Some s → sound s.
Proof.
  intros [= <-]. split.
  - unfold well_typed. split_and!; done.
  - exists []. unfold rx_holds. split_and!; try done.
    + simpl. lia.
    + eexists. reflexivity.
Qed.

(** Every reachable state is well typed and holds a line of printable
    characters, and every operation returns from it. *)
Lemma reachable_sound sched s : reach sched s → sound s.
Proof.
  induction 1 as [s Hboot|e s s' _ IH _ Hfire].
  - by apply booted_sound.
  - destruct (fire_sound e s IH) as (s1 & Hfire1 & Hs1). congruence.
Qed.

Lemma reachable_never_faults sched s e :
  reach sched s → ∃ s', fire e s = Some s'.
Proof.
  intros Hs. destruct (fire_sound e s (reachable_sound sched s Hs)) as (s' & ? & _).
  by exists s'.
Qed.

(** ** The window invariant *)

Lemma UART_RX_Callback_accum context s s' :
  exec (UART_RX_Callback context) s = Some s' → accum_kept_or_reset s s'.
Proof.
  unfold UART_RX_Callback, rx_store, rx_strcmp. run_monad.
  destruct s. rx_cbn. intros H.
  repeat (case_match; simplify_eq/=); try (by left); by right.
Qed.

Lemma Calculate_ADC_Average_accum s s' :
  exec Calculate_ADC_Average s = Some s' →
  adcSum s' = 0 ∧ sampleCount s' = 0 ∧ dataReady s' = false.
Proof.
  unfold Calculate_ADC_Average. run_monad.
  destruct s. cbn -[Z.eqb C.udiv C.sprintf_u_crlf C.strlen Z.leb Hal.spin].
  intros H. by repeat (case_match; simplify_eq/=).
Qed.

Lemma fire_not_Conversion_accum e s s' :
  (∀ sample, e ≠ Conversion sample) →
  fire e s = Some s' → accum_kept_or_reset s s'.
Proof.
  intros He Hfire. destruct e as [sample|b| |]; cbn [fire] in Hfire.
  - by destruct (He sample).
  - apply UART_RX_Callback_accum in Hfire. by destruct s.
  - unfold main_loop_body, exec, mbind, M_bind, get in Hfire.
    destruct (dataReady s) eqn:Hr.
    + right. exact (Calculate_ADC_Average_accum s s' Hfire).
    + left. by simplify_eq/=.
  - right. exact (Calculate_ADC_Average_accum s s' Hfire).
Qed.

Lemma fire_Conversion_accum sample s s' :
  fire (Conversion sample) s = Some s' →
  (adcEnabled s = false ∧ sampleCount s' = sampleCount s ∧
   dataReady s' = dataReady s) ∨
  (adcEnabled s = true ∧ sampleCount s' = C.u32 (sampleCount s + 1) ∧
   dataReady s' = (if ADC_SAMPLE_COUNT <=? sampleCount s' then true
                   else dataReady s)).
Proof.
  cbn [fire]. destruct (adcEnabled s) eqn:Hen.
  - rewrite ADC_Callback_when_enabled by (by destruct s).
    intros [= <-]. right. split; [done|].
    destruct (ADC_SAMPLE_COUNT <=? C.u32 (sampleCount s + 1)) eqn:Hle;
      destruct s; cbn -[Z.leb C.u32] in *; by rewrite Hle.
  - rewrite ADC_Callback_when_disabled by (by destruct s).
    intros [= <-]. left. by destruct s.
Qed.

Lemma booted_accum s :
  booted = Some s → sampleCount s = 0 ∧ dataReady s = false.
Proof. intros [= <-]. done. Qed.

(** In any order of the operations: a clear [dataReady] means fewer than
    [ADC_SAMPLE_COUNT] samples. *)
Lemma reachable_ready_or_short s :
  reachable s →
  0 ≤ sampleCount s ∧ (dataReady s = false → sampleCount s < ADC_SAMPLE_COUNT).
Proof.
  induction 1 as [s Hboot|e s s' _ IH _ Hfire].
  - apply booted_accum in Hboot as [-> ->]. done.
  - destruct IH as [Hpos Hshort]. destruct e as [sample|b| |].
    + apply fire_Conversion_accum in Hfire
        as [(_ & -> & ->)|(_ & Hc & Hr)]; [done|].
      rewrite Hr, Hc. unfold C.u32. split; [apply Z.mod_pos_bound; lia|].
      destruct (Z.leb_spec ADC_SAMPLE_COUNT ((sampleCount s + 1) mod 2 ^ 32));
        [done|]. by intros _.
    + apply fire_not_Conversion_accum in Hfire
        as [(_ & -> & ->)|(_ & -> & ->)]; done.
    + apply fire_not_Conversion_accum in Hfire
        as [(_ & -> & ->)|(_ & -> & ->)]; done.
    + apply fire_not_Conversion_accum in Hfire
        as [(_ & -> & ->)|(_ & -> & ->)]; done.
Qed.

(** When no sample arrives while [dataReady] is set, the count stays within
    the window. *)
Lemma drained_count_bounded s :
  reach drained_first s →
  0 ≤ sampleCount s ≤ ADC_SAMPLE_COUNT ∧
  (dataReady s = false → sampleCount s < ADC_SAMPLE_COUNT) ∧
  (dataReady s = true → sampleCount s = ADC_SAMPLE_COUNT).
Proof.
  induction 1 as [s Hboot|e s s' _ IH Hsched Hfire].
  - apply booted_accum in Hboot as [-> ->]. done.
  - destruct IH as (Hrange & Hshort & Hfull). destruct e as [sample|b| |].
    + cbn [drained_first] in Hsched. specialize (Hshort Hsched).
      apply fire_Conversion_accum in Hfire
        as [(_ & -> & ->)|(_ & Hc & Hr)]; [done|].
      unfold C.u32, ADC_SAMPLE_COUNT in *.
      rewrite Z.mod_small in Hc by lia. rewrite Hr, Hc, Hsched.
      destruct (Z.leb_spec 1200 (sampleCount s + 1)); split_and!; try done; lia.
    + apply fire_not_Conversion_accum in Hfire
        as [(_ & -> & ->)|(_ & -> & ->)]; done.
    + apply fire_not_Conversion_accum in Hfire
        as [(_ & -> & ->)|(_ & -> & ->)]; done.
    + apply fire_not_Conversion_accum in Hfire
        as [(_ & -> & ->)|(_ & -> & ->)]; done.
Qed.

Lemma reach_run sched tr : ∀ s s',
  (∀ e s, sched e s) → reach sched s → run tr s = Some s' → reach sched s'.
Proof.
  induction tr as [|e tr IH]; intros s s' Hall Hs Hrun; simpl in Hrun.
  - by simplify_eq.
  - destruct (fire e s) as [s1|] eqn:Hfire; [|done].
    apply (IH s1); [done| |done]. by apply (reach_fire sched e s).
Qed.

Lemma reachable_scenario l s : scenario l = Some s → reachable s.
Proof.
  unfold scenario. destruct booted as [s0|] eqn:Hboot; [|done].
  cbn [mbind option_bind]. apply reach_run; [done|by apply reach_boot].
Qed.

(** C2, as the firmware has it. In any order of the operations a clear
    [dataReady] means [sampleCount < ADC_SAMPLE_COUNT], and whenever an
    operation turns [dataReady] from false to true, [sampleCount] equals
    [ADC_SAMPLE_COUNT] at that instant. The bound
    [sampleCount <= ADC_SAMPLE_COUNT], and with it [dataReady] implying
    [sampleCount = ADC_SAMPLE_COUNT], holds in the states reached when no
    sample is appended while [dataReady] is still set. *)
Theorem window_count_invariant s :
  reachable s →
  (dataReady s = false → sampleCount s < ADC_SAMPLE_COUNT) ∧
  (∀ e s', fire e s = Some s' →
           dataReady s = false → dataReady s' = true →
           sampleCount s' = ADC_SAMPLE_COUNT) ∧
  (reach drained_first s →
   sampleCount s ≤ ADC_SAMPLE_COUNT ∧
   (dataReady s = true → sampleCount s = ADC_SAMPLE_COUNT)).
Proof.
  intros Hreach.
  destruct (reachable_ready_or_short s Hreach) as [Hpos Hshort].
  split; [exact Hshort|]. split.
  - intros e s' Hfire Hclear Hset. specialize (Hshort Hclear).
    assert (∀ e, (∀ sample, e ≠ Conversion sample) →
                 fire e s = Some s' → False) as Hother.
    { intros e' He' Hfire'.
      destruct (fire_not_Conversion_accum e' s s' He' Hfire')
        as [(_ & _ & Hr)|(_ & _ & Hr)]; congruence. }
    destruct e as [sample|b| |];
      [|exfalso; eapply Hother; [|exact Hfire]; done..].
    apply fire_Conversion_accum in Hfire as [(_ & _ & Hr)|(_ & Hc & Hr)];
      [congruence|].
    unfold C.u32, ADC_SAMPLE_COUNT in *. rewrite Z.mod_small in Hc by lia.
    rewrite Hset, Hclear in Hr.
    destruct (Z.leb_spec 1200 (sampleCount s')); [lia|done].
  - intros Hdrained.
    destruct (drained_count_bounded s Hdrained) as (Hrange & _ & Hfull).
    split; [lia|exact Hfull].
Qed.

Lemma window_count_invariant_almost_full :
  reachable almost_full ∧
  (dataReady almost_full = false ∧ sampleCount almost_full = 1199) ∧
  (dataReady almost_full = false → sampleCount almost_full < ADC_SAMPLE_COUNT) ∧
  (∀ e s', fire e almost_full = Some s' →
           dataReady almost_full = false → dataReady s' = true →
           sampleCount s' = ADC_SAMPLE_COUNT) ∧
  (reach drained_first almost_full →
   sampleCount almost_full ≤ ADC_SAMPLE_COUNT ∧
   (dataReady almost_full = true → sampleCount almost_full = ADC_SAMPLE_COUNT)).
Proof.
  assert (reachable almost_full) as Hreach.
  { apply (reachable_scenario (replicate 1199 5)). vm_compute. reflexivity. }
  split; [exact Hreach|]. split; [split; vm_compute; reflexivity|].
  exact (window_count_invariant almost_full Hreach).
Defined.

(** C2 as stated fails: after "START", 1201 conversions in a row, none of
    them drained by the reporter, leave [sampleCount] at 1201 with
    [dataReady] set. *)
Lemma window_count_exceeds_when_late :
  reachable late_window ∧
  fire (Conversion 0) (the_state (scenario (replicate 1200 0))) = Some late_window ∧
  sampleCount late_window = 1201 ∧ dataReady late_window = true ∧
  ¬ (sampleCount late_window ≤ ADC_SAMPLE_COUNT) ∧
  ¬ (∀ s, reachable s →
          sampleCount s ≤ ADC_SAMPLE_COUNT ∧
          (dataReady s = true → sampleCount s = ADC_SAMPLE_COUNT)).
Proof.
  assert (reachable late_window) as Hreach.
  { apply (reachable_scenario (replicate 1201 0)). vm_compute. reflexivity. }
  assert (sampleCount late_window = 1201) as Hcount
    by (vm_compute; reflexivity).
  split; [exact Hreach|]. split; [vm_compute; reflexivity|].
  split; [exact Hcount|]. split; [vm_compute; reflexivity|].
  split.
  - rewrite Hcount. unfold ADC_SAMPLE_COUNT. lia.
  - intros Hbound. destruct (Hbound late_window Hreach) as [Hle _].
    rewrite Hcount in Hle. unfold ADC_SAMPLE_COUNT in Hle. lia.
Qed.


(** * Further properties of the firmware *)

(** ** No operation faults *)

(** X1. From every state reachable under any schedule, every operation (a
    conversion with any sample, a received byte of any value, a turn of the
    main loop, a report) returns: no access leaves [rxBuffer] or [txBuffer]
    and no division by zero is evaluated. The state it leaves keeps the
    16-byte and 64-byte buffers and holds fewer than fifteen characters. *)
Theorem reachable_operations_return sched s e :
  reach sched s →
  ∃ s', fire e s = Some s' ∧
        length (rxBuffer s') = 16%nat ∧ length (txBuffer s') = 64%nat ∧
        0 ≤ rxIndex s' < 15 ∧
        0 ≤ adcSum s' < 2 ^ 32 ∧ 0 ≤ sampleCount s' < 2 ^ 32.
Proof.
  intros Hs.
  destruct (fire_sound e s (reachable_sound sched s Hs))
    as (s' & Hfire & (Hsum & Hcnt & Htx) & line & Hrx & Hidx & Hlt & _).
  exists s'. split_and!; try done; lia.
Qed.

Lemma reachable_operations_return_late_byte :
  reach any_order late_window ∧
  ∃ s', fire (Received 255) late_window = Some s' ∧
        length (rxBuffer s') = 16%nat ∧ length (txBuffer s') = 64%nat ∧
        0 ≤ rxIndex s' < 15 ∧
        0 ≤ adcSum s' < 2 ^ 32 ∧ 0 ≤ sampleCount s' < 2 ^ 32.
Proof.
  assert (reach any_order late_window) as Hreach.
  { apply (reachable_scenario (replicate 1201 0)). vm_compute. reflexivity. }
  split; [exact Hreach|].
  exact (reachable_operations_return any_order late_window (Received 255) Hreach).
Defined.

(** ** The recognizer, byte by byte *)

Lemma command_printable cmd : is_command cmd → Forall printable cmd.
Proof.
  intros [->| ->]; [apply txt_START_printable|apply txt_STOP_printable].
Qed.

(** X2. One received byte, in a state holding [line]. If the text becomes
    exactly "START" the flag is set and "OK_START\r\n" is written, the
    accumulators untouched; if it becomes exactly "STOP" the flag and the
    accumulators are cleared and "OK_STOP\r\n" is written; in both cases the
    line is emptied. For every other byte, printable or not, nothing is
    written and flag and accumulators stay; a printable byte is stored (or
    empties the buffer when it is the fifteenth character), any other byte
    leaves the line as it was. The receiver is re-armed in every case. *)
Theorem Received_acknowledges_exact_commands s line b :
  rx_holds s line →
  ∃ s', fire (Received b) s = Some s' ∧ rxArmed s' = true ∧
    (line ++ [b] = txt_START →
       adcEnabled s' = true ∧ uartTx s' = uartTx s ++ [ack_START] ∧
       rx_empty s' ∧ adcSum s' = adcSum s ∧
       sampleCount s' = sampleCount s ∧ dataReady s' = dataReady s) ∧
    (line ++ [b] = txt_STOP →
       adcEnabled s' = false ∧ uartTx s' = uartTx s ++ [ack_STOP] ∧
       rx_empty s' ∧ adcSum s' = 0 ∧ sampleCount s' = 0 ∧
       dataReady s' = false) ∧
    (¬ is_command (line ++ [b]) →
       quiet s s' ∧
       rx_holds s' (if decide (printable b) then next_line line b else line)).
Proof.
  intros Hs. destruct (decide (printable b)) as [Hb|Hb].
  - destruct (fire_Received_printable s line b Hs Hb) as (rest & Hlen & Hfire).
    set (s0 := set_rxArmed false (set_rxByte b s)) in *.
    assert (rx_holds s0 line) as Hs0.
    { destruct Hs as (? & ? & ? & ? & ?). unfold s0. by destruct s. }
    eexists. split; [exact Hfire|]. split_and!.
    + unfold recognized. repeat destruct (decide _); by destruct s.
    + intros Htext.
      destruct (fire_Received_START s line b Hs Htext) as (s' & Hf & Hrest).
      rewrite Hfire in Hf. injection Hf as <-.
      destruct Hrest as (? & ? & ? & ? & ? & ? & ?). by split_and!.
    + intros Htext.
      split_and!; [| |apply recognized_cleared; [done|by left; right]|..];
        unfold recognized;
        rewrite (decide_False (P := _ = txt_START)) by (by rewrite Htext);
        rewrite decide_True by done; by destruct s.
    + intros Hno. split.
      * pose proof (recognized_quiet line b (line ++ b :: 0 :: rest) s0 Hno) as Hq.
        unfold quiet in *. unfold s0 in Hq. by destruct s.
      * apply recognized_holds; [done| |done].
        by destruct Hs as (_ & _ & _ & ? & _).
  - cbn [fire]. rewrite UART_RX_Callback_nonprintable by (by destruct s).
    eexists. split; [reflexivity|]. split_and!.
    + by destruct s.
    + intros Htext. destruct Hb.
      exact (command_last_printable _ _ _ txt_START_printable Htext).
    + intros Htext. destruct Hb.
      exact (command_last_printable _ _ _ txt_STOP_printable Htext).
    + intros _. split.
      * unfold quiet. by destruct s.
      * destruct Hs as (? & ? & ? & ? & ?). unfold rx_holds. by destruct s.
Qed.

(** "STO" followed by a lower-case "p" is not "STOP". *)
Lemma Received_lower_case_is_no_command :
  rx_holds after_STO txt_STO ∧
  ¬ is_command (txt_STO ++ [112]) ∧
  ∃ s', fire (Received 112) after_STO = Some s' ∧ rxArmed s' = true ∧
    (txt_STO ++ [112] = txt_START →
       adcEnabled s' = true ∧ uartTx s' = uartTx after_STO ++ [ack_START] ∧
       rx_empty s' ∧ adcSum s' = adcSum after_STO ∧
       sampleCount s' = sampleCount after_STO ∧
       dataReady s' = dataReady after_STO) ∧
    (txt_STO ++ [112] = txt_STOP →
       adcEnabled s' = false ∧ uartTx s' = uartTx after_STO ++ [ack_STOP] ∧
       rx_empty s' ∧ adcSum s' = 0 ∧ sampleCount s' = 0 ∧
       dataReady s' = false) ∧
    (¬ is_command (txt_STO ++ [112]) →
       quiet after_STO s' ∧
       rx_holds s' (if decide (printable 112) then next_line txt_STO 112
                    else txt_STO)).
Proof.
  assert (rx_holds after_STO txt_STO) as Hs.
  { unfold rx_holds. split; [reflexivity|]. split; [reflexivity|].
    split; [simpl; lia|]. split; [repeat constructor; unfold printable; lia|].
    eexists. vm_compute. reflexivity. }
  split; [exact Hs|]. split; [intros [H|H]; discriminate H|].
  exact (Received_acknowledges_exact_commands after_STO txt_STO 112 Hs).
Defined.

(** ** A command after unfinished text *)

Lemma texts_seen_app line w1 w2 :
  texts_seen line (w1 ++ w2) =
  texts_seen line w1 ++ texts_seen (line ++ w1) w2.
Proof.
  revert line. induction w1 as [|b w1 IH]; intros line; simpl.
  - by rewrite app_nil_r.
  - rewrite IH. by rewrite <- app_assoc.
Qed.

(** No text that ends a command's characters after a non-empty line is a
    command: "START" and "STOP" do not overlap themselves or each other. *)
Lemma texts_after_unfinished line cmd :
  line ≠ [] → is_command cmd →
  Forall (λ text, ¬ is_command text) (texts_seen line cmd).
Proof.
  intros Hne [->| ->]; cbn [texts_seen txt_START txt_STOP];
    repeat constructor; intros [H|H];
    apply (f_equal (@rev Z)) in H; rewrite !rev_app_distr in H; simpl in H;
    try discriminate H;
    injection H as H; apply (f_equal (@rev Z)) in H;
    rewrite rev_involutive in H; by simpl in H.
Qed.

(** X3. A command sent while the buffer holds any unfinished text, of one
    to fourteen characters, is not recognized: after the bytes of "START"
    or of "STOP" the enable flag, the accumulators and the transmitted
    output are as before. *)
Theorem command_after_unfinished_text_is_lost s line cmd :
  rx_holds s line → line ≠ [] → is_command cmd →
  ∃ s', run (bytes_of cmd) s = Some s' ∧
        adcEnabled s' = adcEnabled s ∧ uartTx s' = uartTx s ∧
        adcSum s' = adcSum s ∧ sampleCount s' = sampleCount s ∧
        dataReady s' = dataReady s.
Proof.
  intros Hs Hne Hcmd.
  pose proof (texts_after_unfinished line cmd Hne Hcmd) as Hall.
  pose proof (command_printable cmd Hcmd) as Hpr.
  assert (∃ s', run (bytes_of cmd) s = Some s' ∧ quiet s s') as (s' & Hrun & Hq).
  { destruct (decide (length line + length cmd ≤ 15)%nat) as [Hle|Hgt].
    - destruct (run_bytes_unmatched cmd s line Hs Hpr Hle Hall)
        as (s' & Hrun & Hq & _). by exists s'.
    - destruct Hs as (Hs1 & Hs2 & Hlt & Hs4 & Hs5).
      assert (rx_holds s line) as Hs by done.
      assert (4 ≤ length cmd ≤ 5)%nat as Hlen
        by (destruct Hcmd as [->| ->]; simpl; lia).
      rewrite <- (take_drop (15 - length line) cmd) in Hall |- *.
      rewrite texts_seen_app in Hall. apply Forall_app in Hall as [Hall1 _].
      rewrite bytes_of_app, run_app.
      destruct (run_bytes_unmatched (take (15 - length line) cmd) s line)
        as (s1 & -> & Hq1 & Hs1'); [done|by apply Forall_take| |done|].
      { rewrite length_take. lia. }
      rewrite decide_True in Hs1' by (rewrite length_take; lia).
      cbn [mbind option_bind].
      destruct (run_bytes_unmatched (drop (15 - length line) cmd) s1 [])
        as (s' & Hrun & Hq2 & _);
        [by apply rx_empty_holds|by apply Forall_drop|
         rewrite length_drop; simpl; lia| |].
      { assert (15 - length line = 1 ∨ 15 - length line = 2 ∨
                15 - length line = 3 ∨ 15 - length line = 4)%nat
          as [Hk|[Hk|[Hk|Hk]]] by lia;
          rewrite Hk; destruct Hcmd as [->| ->];
          repeat constructor; intros [H|H]; discriminate H. }
      exists s'. split; [exact Hrun|]. by apply (quiet_trans _ _ _ Hq1). }
  exists s'. destruct Hq as (? & ? & ? & ? & ? & _). by split_and!.
Qed.

(** "START" sent while the buffer holds "STO". *)
Lemma START_after_STO_is_lost :
  rx_holds after_STO txt_STO ∧ txt_STO ≠ [] ∧ is_command txt_START ∧
  ∃ s', run (bytes_of txt_START) after_STO = Some s' ∧
        adcEnabled s' = adcEnabled after_STO ∧ uartTx s' = uartTx after_STO ∧
        adcSum s' = adcSum after_STO ∧ sampleCount s' = sampleCount after_STO ∧
        dataReady s' = dataReady after_STO.
Proof.
  assert (rx_holds after_STO txt_STO) as Hs.
  { unfold rx_holds. split; [reflexivity|]. split; [reflexivity|].
    split; [simpl; lia|]. split; [repeat constructor; unfold printable; lia|].
    eexists. vm_compute. reflexivity. }
  assert (txt_STO ≠ []) as Hne by discriminate.
  assert (is_command txt_START) as Hcmd by (by left).
  split; [exact Hs|]. split; [exact Hne|]. split; [exact Hcmd|].
  exact (command_after_unfinished_text_is_lost after_STO txt_STO txt_START
           Hs Hne Hcmd).
Defined.

(** ** Commands sent as lines *)

Lemma fire_Received_STOP s line b :
  rx_holds s line → line ++ [b] = txt_STOP →
  ∃ s', fire (Received b) s = Some s' ∧
        adcEnabled s' = false ∧ rx_empty s' ∧ rxArmed s' = true ∧
        uartTx s' = uartTx s ++ [ack_STOP] ∧
        adcSum s' = 0 ∧ sampleCount s' = 0 ∧ dataReady s' = false.
Proof.
  intros Hs Htext.
  destruct (UART_RX_Callback_STOP 0 (set_rxArmed false (set_rxByte b s)) line)
    as (s' & Hexec & Hrest).
  - destruct Hs as (? & ? & ? & ? & ?). by destruct s.
  - by destruct s.
  - exists s'. split; [exact Hexec|]. by destruct s.
Qed.

(** "STOP" received on an empty line. *)
Lemma run_STOP_from_empty s :
  rx_holds s [] →
  ∃ s', run (bytes_of txt_STOP) s = Some s' ∧
        adcEnabled s' = false ∧ rx_empty s' ∧ rxArmed s' = true ∧
        uartTx s' = uartTx s ++ [ack_STOP] ∧
        adcSum s' = 0 ∧ sampleCount s' = 0 ∧ dataReady s' = false.
Proof.
  intros Hs.
  change txt_STOP with (txt_STO ++ [80]).
  rewrite bytes_of_app, run_app.
  destruct (run_bytes_unmatched txt_STO s [] Hs) as (s1 & -> & Hq & Hs1).
  - repeat constructor; unfold printable; lia.
  - simpl. lia.
  - repeat constructor; intros [H|H]; discriminate H.
  - rewrite decide_False in Hs1 by (simpl; lia). cbn [mbind option_bind].
    destruct (fire_Received_STOP s1 _ 80 Hs1 eq_refl) as (s' & Hfire & Hrest).
    exists s'. rewrite run_bytes_cons, Hfire. split; [done|].
    destruct Hq as (_ & _ & _ & _ & Hq5 & _).
    destruct Hrest as (? & ? & ? & ? & ? & ? & ?).
    split_and!; try done; congruence.
Qed.

(** One command and its terminator, received on an empty line. *)
Lemma run_command_line term cmd s :
  rx_holds s [] → Forall (λ b, ¬ printable b) term → is_command cmd →
  ∃ s', run (bytes_of (cmd ++ term)) s = Some s' ∧ rx_holds s' [] ∧
        uartTx s' = uartTx s ++ [ack_of cmd] ∧
        adcEnabled s' = bool_decide (cmd = txt_START) ∧
        (cmd = txt_STOP →
         adcSum s' = 0 ∧ sampleCount s' = 0 ∧ dataReady s' = false) ∧
        (cmd = txt_START →
         adcSum s' = adcSum s ∧ sampleCount s' = sampleCount s ∧
         dataReady s' = dataReady s).
Proof.
  intros Hs Hterm Hcmd. rewrite bytes_of_app, run_app.
  assert (∃ s1, run (bytes_of cmd) s = Some s1 ∧ rx_empty s1 ∧
                uartTx s1 = uartTx s ++ [ack_of cmd] ∧
                adcEnabled s1 = bool_decide (cmd = txt_START) ∧
                (cmd = txt_STOP →
                 adcSum s1 = 0 ∧ sampleCount s1 = 0 ∧ dataReady s1 = false) ∧
                (cmd = txt_START →
                 adcSum s1 = adcSum s ∧ sampleCount s1 = sampleCount s ∧
                 dataReady s1 = dataReady s))
    as (s1 & -> & Hrx & Htx & Hen & Hacc & Hkeep).
  { destruct Hcmd as [->| ->].
    - destruct (run_START_from_empty s Hs)
        as (s1 & Hrun & ? & ? & _ & ? & ? & ? & ?).
      exists s1. by split_and!.
    - destruct (run_STOP_from_empty s Hs)
        as (s1 & Hrun & ? & ? & _ & ? & ? & ? & ?).
      exists s1. by split_and!. }
  cbn [mbind option_bind].
  destruct (run_nonprintable term s1 Hterm) as (a & b & ->).
  eexists. split; [reflexivity|].
  apply rx_empty_holds in Hrx. destruct Hrx as (? & ? & ? & ? & ?).
  unfold rx_holds. destruct s1; simpl in *. by split_and!.
Qed.

(** X4. Commands sent as lines on an empty buffer, each followed by the
    same terminator of non-printable bytes (CR LF, or nothing at all), are
    all recognized: the acknowledgements are written in the order of the
    commands, the enable flag is that of the last command, the line is
    empty afterwards, and the accumulators are zero when the last command
    is "STOP". *)
Theorem command_lines_acknowledged_in_order term cmds : ∀ s,
  rx_holds s [] → Forall (λ b, ¬ printable b) term → Forall is_command cmds →
  ∃ s', run (bytes_of (command_lines term cmds)) s = Some s' ∧
        uartTx s' = uartTx s ++ (ack_of <$> cmds) ∧
        adcEnabled s' = match last cmds with
                        | Some cmd => bool_decide (cmd = txt_START)
                        | None => adcEnabled s
                        end ∧
        rx_holds s' [] ∧
        (last cmds = Some txt_STOP →
         adcSum s' = 0 ∧ sampleCount s' = 0 ∧ dataReady s' = false).
Proof.
  induction cmds as [|cmd cmds IH]; intros s Hs Hterm Hcmds.
  - exists s. simpl. rewrite app_nil_r. by split_and!.
  - apply Forall_cons in Hcmds as [Hcmd Hcmds].
    cbn [command_lines flat_map]. fold (command_lines term cmds).
    rewrite bytes_of_app, run_app.
    destruct (run_command_line term cmd s Hs Hterm Hcmd)
      as (s1 & -> & Hs1 & Htx1 & Hen1 & Hacc1 & _).
    cbn [mbind option_bind].
    destruct (IH s1 Hs1 Hterm Hcmds) as (s' & Hrun & Htx & Hen & Hs' & Hacc).
    exists s'. split; [exact Hrun|]. rewrite last_cons.
    split_and!.
    + rewrite Htx, Htx1, fmap_cons, <- app_assoc. done.
    + rewrite Hen. by destruct (last cmds).
    + done.
    + destruct (last cmds) as [cmd'|] eqn:Hlast.
      * intros [= ->]. by apply Hacc.
      * apply last_None in Hlast as ->. simpl in Hrun. injection Hrun as <-.
        intros [= ->]. by apply Hacc1.
Qed.

(** "STOP", "START", "START", each closed by CR LF, on the empty line of a
    window in progress. *)
Lemma command_lines_acknowledged_in_window :
  rx_holds window_in_progress [] ∧
  Forall (λ b, ¬ printable b) [13; 10] ∧
  Forall is_command [txt_STOP; txt_START; txt_START] ∧
  ∃ s', run (bytes_of (command_lines [13; 10] [txt_STOP; txt_START; txt_START]))
            window_in_progress = Some s' ∧
        uartTx s' = uartTx window_in_progress ++
                    (ack_of <$> [txt_STOP; txt_START; txt_START]) ∧
        adcEnabled s' = match last [txt_STOP; txt_START; txt_START] with
                        | Some cmd => bool_decide (cmd = txt_START)
                        | None => adcEnabled window_in_progress
                        end ∧
        rx_holds s' [] ∧
        (last [txt_STOP; txt_START; txt_START] = Some txt_STOP →
         adcSum s' = 0 ∧ sampleCount s' = 0 ∧ dataReady s' = false).
Proof.
  assert (rx_holds window_in_progress []) as Hs.
  { unfold rx_holds. split; [reflexivity|]. split; [reflexivity|].
    split; [simpl; lia|]. split; [constructor|].
    eexists. vm_compute. reflexivity. }
  assert (Forall (λ b, ¬ printable b) [13; 10]) as Hterm
    by (repeat constructor; unfold printable; lia).
  assert (Forall is_command [txt_STOP; txt_START; txt_START]) as Hcmds
    by (repeat constructor; by (left + right)).
  split; [exact Hs|]. split; [exact Hterm|]. split; [exact Hcmds|].
  exact (command_lines_acknowledged_in_order [13; 10]
           [txt_STOP; txt_START; txt_START] window_in_progress Hs Hterm Hcmds).
Defined.

(** ** Windows, polls and reports *)

Lemma fire_MainLoop_idle s : dataReady s = false → fire MainLoop s = Some s.
Proof.
  intros H. cbn [fire]. unfold main_loop_body, exec, mbind, M_bind, get.
  by rewrite H.
Qed.

Lemma fire_MainLoop_ready s :
  dataReady s = true → fire MainLoop s = exec Calculate_ADC_Average s.
Proof.
  intros H. cbn [fire]. unfold main_loop_body, exec, mbind, M_bind, get.
  by rewrite H.
Qed.

Lemma run_idle_polls p s :
  dataReady s = false → run (replicate p MainLoop) s = Some s.
Proof.
  intros H. induction p as [|p IH]; [done|].
  cbn [replicate run]. by rewrite fire_MainLoop_idle.
Qed.

(** One conversion while sampling is enabled. *)
Lemma fire_Conversion_enabled x s :
  adcEnabled s = true →
  ∃ s', fire (Conversion x) s = Some s' ∧
        adcSum s' = C.u32 (adcSum s + x) ∧
        sampleCount s' = C.u32 (sampleCount s + 1) ∧
        dataReady s' = (if ADC_SAMPLE_COUNT <=? sampleCount s' then true
                        else dataReady s) ∧
        adcEnabled s' = true ∧ uartTx s' = uartTx s ∧
        txBuffer s' = txBuffer s ∧ rxBuffer s' = rxBuffer s ∧
        rxIndex s' = rxIndex s.
Proof.
  intros Hen. cbn [fire].
  rewrite ADC_Callback_when_enabled by (by destruct s).
  eexists. split; [reflexivity|].
  destruct s; cbn -[Z.leb C.u32] in *.
  destruct (ADC_SAMPLE_COUNT <=? C.u32 (sampleCount0 + 1)) eqn:Hle;
    cbn -[Z.leb C.u32]; rewrite ?Hle; by split_and!.
Qed.

Lemma total_bounds lo hi l :
  Forall (λ x, lo ≤ x ≤ hi) l →
  Z.of_nat (length l) * lo ≤ total l ≤ Z.of_nat (length l) * hi.
Proof.
  induction 1 as [|x l Hx _ IH]; [simpl; lia|].
  cbn [total foldr length]. fold (total l). rewrite Nat2Z.inj_succ. nia.
Qed.

(** Samples accumulated with [p] turns of the main loop before each
    conversion. The turns are idle as long as the window is not full; with
    no turns at all ([p = 0]) the samples may run past the window. *)
Lemma run_samples_with_polls p m l : ∀ s,
  0 ≤ m →
  sampleCount s + Z.of_nat (length l) < 2 ^ 32 →
  (sampleCount s + Z.of_nat (length l)) * m < 2 ^ 32 →
  p = 0%nat ∨ sampleCount s + Z.of_nat (length l) ≤ ADC_SAMPLE_COUNT →
  adcEnabled s = true → ready_iff_full s →
  0 ≤ sampleCount s → 0 ≤ adcSum s ≤ sampleCount s * m →
  Forall (λ x, 0 ≤ x ≤ m) l →
  ∃ s', run (flat_map (λ x, replicate p MainLoop ++ [Conversion x]) l) s = Some s' ∧
        adcSum s' = adcSum s + total l ∧
        sampleCount s' = sampleCount s + Z.of_nat (length l) ∧
        adcEnabled s' = true ∧ ready_iff_full s' ∧
        uartTx s' = uartTx s ∧ txBuffer s' = txBuffer s ∧
        rxBuffer s' = rxBuffer s ∧ rxIndex s' = rxIndex s.
Proof.
  intros s Hm. revert s.
  induction l as [|x l IH]; intros s Hcw Hsw Hp Hen Hrdy Hc Hs Hl.
  - exists s. simpl. split_and!; try done; lia.
  - apply Forall_cons in Hl as [Hx Hl].
    cbn [length] in Hcw, Hsw, Hp. rewrite Nat2Z.inj_succ in Hcw, Hsw, Hp.
    cbn [flat_map]. rewrite <- app_assoc, run_app.
    assert (run (replicate p MainLoop) s = Some s) as ->.
    { destruct Hp as [->|Hp]; [done|]. apply run_idle_polls.
      unfold ready_iff_full in Hrdy. rewrite Hrdy.
      apply bool_decide_eq_false. lia. }
    cbn [mbind option_bind app run].
    destruct (fire_Conversion_enabled x s Hen)
      as (s1 & -> & Hs1 & Hc1 & Hr1 & Hen1 & Htx1 & Htb1 & Hrb1 & Hri1).
    unfold C.u32 in Hs1, Hc1.
    rewrite Z.mod_small in Hs1 by nia. rewrite Z.mod_small in Hc1 by lia.
    assert (ready_iff_full s1) as Hrdy1.
    { unfold ready_iff_full in *. rewrite Hr1, Hrdy, Hc1.
      destruct (Z.leb_spec ADC_SAMPLE_COUNT (sampleCount s + 1)).
      - symmetry. by apply bool_decide_eq_true.
      - rewrite !bool_decide_eq_false_2; [done|lia|lia]. }
    destruct (IH s1) as (s' & Hrun & Hs' & Hc' & Hen' & Hrdy' & Htx' & Htb' & Hrb' & Hri');
      [lia|rewrite Hc1; nia|rewrite Hc1; lia|done|done|lia|nia|done|].
    exists s'. split; [exact Hrun|].
    cbn [total foldr length]. fold (total l). rewrite Nat2Z.inj_succ.
    split_and!; try done; try congruence; lia.
Qed.

(** One full window with the main loop polling: the turn after the last
    sample reports the floor mean and resets the window. *)
Lemma run_polled_window m w s :
  0 ≤ m → ADC_SAMPLE_COUNT * m < 2 ^ 32 →
  fresh_window s →
  Z.of_nat (length w) = ADC_SAMPLE_COUNT → Forall (λ x, 0 ≤ x ≤ m) w →
  ∃ s', run (polled_window w) s = Some s' ∧ fresh_window s' ∧
        uartTx s' = uartTx s ++ [report_line (total w / ADC_SAMPLE_COUNT)] ∧
        0 ≤ total w / ADC_SAMPLE_COUNT ≤ m.
Proof.
  intros Hm Hfit (Hen & Hsum & Hcnt & Hrdy & Htb) Hlen Hw.
  unfold polled_window. rewrite run_app.
  assert (ready_iff_full s) as Hiff
    by (unfold ready_iff_full; by rewrite Hrdy, Hcnt).
  assert (sampleCount s + Z.of_nat (length w) = ADC_SAMPLE_COUNT) as Hfull
    by (rewrite Hcnt, Hlen; lia).
  destruct (run_samples_with_polls 1 m w s Hm)
    as (s1 & Hrun & Hs1 & Hc1 & Hen1 & Hrdy1 & Htx1 & Htb1 & _);
    [rewrite Hfull; done|by rewrite Hfull|right; lia|done|done|lia|
     rewrite Hsum, Hcnt; lia|done|].
  change (flat_map (λ x, [MainLoop; Conversion x]) w)
    with (flat_map (λ x, replicate 1 MainLoop ++ [Conversion x]) w).
  rewrite Hrun. cbn [mbind option_bind run].
  rewrite Hsum, Z.add_0_l in Hs1. rewrite Hcnt, Z.add_0_l, Hlen in Hc1.
  pose proof (total_bounds 0 m w Hw) as Htot.
  assert (dataReady s1 = true) as Hr1.
  { unfold ready_iff_full in Hrdy1. rewrite Hrdy1.
    apply bool_decide_eq_true. lia. }
  rewrite fire_MainLoop_ready by done.
  destruct (Calculate_ADC_Average_nonempty s1) as (rest & -> & Hlen64).
  { unfold well_typed. rewrite Hs1, Hc1, Htb1.
    unfold ADC_SAMPLE_COUNT in *. split_and!; try done; lia. }
  { by rewrite Hc1. }
  eexists. split; [reflexivity|].
  rewrite Hs1, Hc1 in Hlen64 |- *. split_and!.
  - unfold fresh_window. destruct s1; cbn -[C.utoa Z.div] in *.
    split_and!; try done. rewrite <- app_assoc. exact Hlen64.
  - unfold report_line. destruct s1; cbn -[C.utoa Z.div] in *. by rewrite Htx1.
  - apply Z.div_pos; unfold ADC_SAMPLE_COUNT; lia.
  - apply Z.div_le_upper_bound; unfold ADC_SAMPLE_COUNT in *; lia.
Qed.

(** X5. Full windows arriving one after the other while the main loop
    polls (a turn before every conversion and one after the last of each
    window): one line is written per window, in the order of the windows,
    each the floor of the window's sum divided by [ADC_SAMPLE_COUNT] and at
    most the largest sample; nothing else is written, and the window is
    fresh again at the end. *)
Theorem windows_reported_in_order m ws : ∀ s,
  0 ≤ m → ADC_SAMPLE_COUNT * m < 2 ^ 32 →
  fresh_window s →
  Forall (λ w, Z.of_nat (length w) = ADC_SAMPLE_COUNT ∧
               Forall (λ x, 0 ≤ x ≤ m) w) ws →
  ∃ s', run (flat_map polled_window ws) s = Some s' ∧
        uartTx s' = uartTx s ++
                    ((λ w, report_line (total w / ADC_SAMPLE_COUNT)) <$> ws) ∧
        fresh_window s' ∧
        Forall (λ w, 0 ≤ total w / ADC_SAMPLE_COUNT ≤ m) ws.
Proof.
  induction ws as [|w ws IH]; intros s Hm Hfit Hs Hws.
  - exists s. simpl. rewrite app_nil_r. by split_and!.
  - apply Forall_cons in Hws as [[Hlen Hw] Hws].
    cbn [flat_map]. rewrite run_app.
    destruct (run_polled_window m w s Hm Hfit Hs Hlen Hw)
      as (s1 & -> & Hs1 & Htx1 & Hmean).
    cbn [mbind option_bind].
    destruct (IH s1 Hm Hfit Hs1 Hws) as (s' & Hrun & Htx & Hs' & Hmeans).
    exists s'. split; [exact Hrun|]. split_and!.
    + by rewrite Htx, Htx1, fmap_cons, <- app_assoc.
    + done.
    + by constructor.
Qed.

(** Two windows after "START": 600 samples of 10 and 600 of 21, then 1200
    full-scale samples. *)
Lemma windows_reported_in_order_two :
  0 ≤ ADC_MAX_RESULT ∧ ADC_SAMPLE_COUNT * ADC_MAX_RESULT < 2 ^ 32 ∧
  fresh_window (the_state (scenario [])) ∧
  Forall (λ w, Z.of_nat (length w) = ADC_SAMPLE_COUNT ∧
               Forall (λ x, 0 ≤ x ≤ ADC_MAX_RESULT) w)
    [replicate 600 10 ++ replicate 600 21; replicate 1200 1023] ∧
  (λ w, report_line (total w / ADC_SAMPLE_COUNT)) <$>
    [replicate 600 10 ++ replicate 600 21; replicate 1200 1023] =
    [C.chars "15" ++ [13; 10]; C.chars "1023" ++ [13; 10]] ∧
  ∃ s', run (flat_map polled_window
               [replicate 600 10 ++ replicate 600 21; replicate 1200 1023])
            (the_state (scenario [])) = Some s' ∧
        uartTx s' = uartTx (the_state (scenario [])) ++
                    ((λ w, report_line (total w / ADC_SAMPLE_COUNT)) <$>
                       [replicate 600 10 ++ replicate 600 21;
                        replicate 1200 1023]) ∧
        fresh_window s' ∧
        Forall (λ w, 0 ≤ total w / ADC_SAMPLE_COUNT ≤ ADC_MAX_RESULT)
          [replicate 600 10 ++ replicate 600 21; replicate 1200 1023].
Proof.
  assert (0 ≤ ADC_MAX_RESULT) as Hm by (unfold ADC_MAX_RESULT; lia).
  assert (ADC_SAMPLE_COUNT * ADC_MAX_RESULT < 2 ^ 32) as Hfit by reflexivity.
  assert (fresh_window (the_state (scenario []))) as Hs
    by (unfold fresh_window; split_and!; vm_compute; reflexivity).
  assert (Forall (λ w, Z.of_nat (length w) = ADC_SAMPLE_COUNT ∧
                       Forall (λ x, 0 ≤ x ≤ ADC_MAX_RESULT) w)
            [replicate 600 10 ++ replicate 600 21; replicate 1200 1023]) as Hws.
  { apply Forall_cons. split; [split|].
    - vm_compute. reflexivity.
    - apply Forall_app. split; apply Forall_replicate;
        unfold ADC_MAX_RESULT; lia.
    - apply Forall_cons. split; [split|done].
      + vm_compute. reflexivity.
      + apply Forall_replicate. unfold ADC_MAX_RESULT. lia. }
  split; [exact Hm|]. split; [exact Hfit|]. split; [exact Hs|].
  split; [exact Hws|]. split; [vm_compute; reflexivity|].
  exact (windows_reported_in_order ADC_MAX_RESULT
           [replicate 600 10 ++ replicate 600 21; replicate 1200 1023]
           (the_state (scenario [])) Hm Hfit Hs Hws).
Defined.




(** ** The sum beyond 32 bits *)

(** X7. [ADC_Callback] adds without any overflow check: whatever the
    samples are, after any number of conversions while enabled [adcSum] is
    the sum of its earlier value and the samples modulo [2 ^ 32], and
    [sampleCount] the count modulo [2 ^ 32]. *)
Theorem adcSum_is_the_sum_modulo_2_32 l : ∀ s,
  adcEnabled s = true →
  0 ≤ adcSum s < 2 ^ 32 → 0 ≤ sampleCount s < 2 ^ 32 →
  ∃ s', run (samples_of l) s = Some s' ∧
        adcSum s' = (adcSum s + total l) mod 2 ^ 32 ∧
        sampleCount s' = (sampleCount s + Z.of_nat (length l)) mod 2 ^ 32 ∧
        adcEnabled s' = true.
Proof.
  induction l as [|x l IH]; intros s Hen Hs Hc.
  - exists s. simpl. rewrite !Z.add_0_r, !Z.mod_small by done. done.
  - cbn [samples_of fmap list_fmap run].
    destruct (fire_Conversion_enabled x s Hen)
      as (s1 & -> & Hs1 & Hc1 & _ & Hen1 & _).
    unfold C.u32 in Hs1, Hc1.
    destruct (IH s1 Hen1) as (s' & Hrun & Hs' & Hc' & Hen').
    { rewrite Hs1. apply Z.mod_pos_bound. lia. }
    { rewrite Hc1. apply Z.mod_pos_bound. lia. }
    exists s'. split; [exact Hrun|].
    cbn [total foldr length]. fold (total l). rewrite Nat2Z.inj_succ.
    rewrite Hs', Hc', Hs1, Hc1. split_and!; [| |done].
    + rewrite Zplus_mod_idemp_l. f_equal. lia.
    + rewrite Zplus_mod_idemp_l. f_equal. lia.
Qed.

(** A window of 1200 samples of 4000000: the true sum 4800000000 does
    not fit, [adcSum] holds it less [2 ^ 32], and the mean of what is held
    is 420860. *)
Lemma adcSum_wraps_on_large_samples :
  adcEnabled (the_state (scenario [])) = true ∧
  0 ≤ adcSum (the_state (scenario [])) < 2 ^ 32 ∧
  0 ≤ sampleCount (the_state (scenario [])) < 2 ^ 32 ∧
  (total (replicate 1200 4000000) = 4800000000 ∧
   (adcSum (the_state (scenario [])) + total (replicate 1200 4000000))
     mod 2 ^ 32 = 505032704 ∧
   505032704 / 1200 = 420860) ∧
  ∃ s', run (samples_of (replicate 1200 4000000)) (the_state (scenario [])) = Some s' ∧
        adcSum s' = (adcSum (the_state (scenario [])) +
                     total (replicate 1200 4000000)) mod 2 ^ 32 ∧
        sampleCount s' = (sampleCount (the_state (scenario [])) +
                          Z.of_nat (length (replicate 1200 4000000))) mod 2 ^ 32 ∧
        adcEnabled s' = true.
Proof.
  assert (0 ≤ adcSum (the_state (scenario [])) < 2 ^ 32) as Hs
    by (vm_compute; split; congruence).
  assert (0 ≤ sampleCount (the_state (scenario [])) < 2 ^ 32) as Hc
    by (vm_compute; split; congruence).
  split; [reflexivity|]. split; [exact Hs|]. split; [exact Hc|].
  split; [split_and!; vm_compute; reflexivity|].
  exact (adcSum_is_the_sum_modulo_2_32 (replicate 1200 4000000)
           (the_state (scenario [])) eq_refl Hs Hc).
Defined.

(** ** Reporting twice *)

(** X8. A second call of [Calculate_ADC_Average] right after a first one is
    silent and changes nothing: the first call leaves the window empty, so
    whatever it wrote, the second writes nothing and returns the same
    state. *)
Theorem Calculate_ADC_Average_twice s :
  well_typed s →
  ∃ s1, exec Calculate_ADC_Average s = Some s1 ∧
        exec Calculate_ADC_Average s1 = Some s1 ∧
        run [Report; Report] s = Some s1 ∧
        (sampleCount s ≠ 0 →
         uartTx s1 = uartTx s ++ [report_line (adcSum s / sampleCount s)]) ∧
        (sampleCount s = 0 → uartTx s1 = uartTx s).
Proof.
  intros Hwt.
  assert (∃ s1, exec Calculate_ADC_Average s = Some s1 ∧
                (sampleCount s ≠ 0 →
                 uartTx s1 = uartTx s ++ [report_line (adcSum s / sampleCount s)]) ∧
                (sampleCount s = 0 → uartTx s1 = uartTx s))
    as (s1 & Hexec & Hsent & Hsilent).
  { destruct (decide (sampleCount s = 0)) as [Hz|Hnz].
    - eexists. split; [|split; [done|]].
      + destruct s; simpl in *; subst. reflexivity.
      + intros _. by destruct s.
    - destruct (Calculate_ADC_Average_nonempty s Hwt Hnz) as (rest & -> & _).
      eexists. split; [reflexivity|]. split; [|done].
      intros _. unfold report_line. by destruct s. }
  destruct (Calculate_ADC_Average_accum s s1 Hexec) as (Hs1 & Hc1 & Hr1).
  assert (exec Calculate_ADC_Average s1 = Some s1) as Hagain.
  { destruct s1; simpl in *; subst. reflexivity. }
  exists s1. split_and!; try done.
  cbn [run fire]. by rewrite Hexec, Hagain.
Qed.

Lemma Calculate_ADC_Average_twice_on_window :
  well_typed (the_state (scenario [10; 21; 10])) ∧
  ∃ s1, exec Calculate_ADC_Average (the_state (scenario [10; 21; 10])) = Some s1 ∧
        exec Calculate_ADC_Average s1 = Some s1 ∧
        run [Report; Report] (the_state (scenario [10; 21; 10])) = Some s1 ∧
        (sampleCount (the_state (scenario [10; 21; 10])) ≠ 0 →
         uartTx s1 = uartTx (the_state (scenario [10; 21; 10])) ++
                     [report_line (adcSum (the_state (scenario [10; 21; 10])) /
                                   sampleCount (the_state (scenario [10; 21; 10])))]) ∧
        (sampleCount (the_state (scenario [10; 21; 10])) = 0 →
         uartTx s1 = uartTx (the_state (scenario [10; 21; 10]))).
Proof.
  assert (well_typed (the_state (scenario [10; 21; 10]))) as Hwt
    by (unfold well_typed; vm_compute; repeat split; congruence).
  split; [exact Hwt|].
  exact (Calculate_ADC_Average_twice (the_state (scenario [10; 21; 10])) Hwt).
Defined.

(** ** What the firmware sends *)

Lemma report_line_sent q : 0 ≤ q < 2 ^ 32 → sent_line (C.utoa q ++ [13; 10]).
Proof.
  intros Hq. right. right. exists (C.utoa q), q.
  split; [by apply utoa_decimal|]. done.
Qed.

Lemma Calculate_ADC_Average_sends s :
  well_typed s →
  ∃ s' new, exec Calculate_ADC_Average s = Some s' ∧
            uartTx s' = uartTx s ++ new ∧ Forall sent_line new.
Proof.
  intros Hwt. destruct (decide (sampleCount s = 0)) as [Hz|Hnz].
  - exists (set_dataReady false (set_sampleCount 0 (set_adcSum 0 s))), [].
    split; [destruct s; simpl in *; subst; reflexivity|].
    split; [|done]. rewrite app_nil_r. by destruct s.
  - destruct (Calculate_ADC_Average_nonempty s Hwt Hnz) as (rest & -> & _).
    eexists. exists [C.utoa (adcSum s / sampleCount s) ++ [13; 10]].
    split; [reflexivity|]. split; [by destruct s|].
    apply Forall_cons. split; [|done]. apply report_line_sent.
    destruct Hwt as (Hs & Hc & _).
    split; [apply Z.div_pos; lia|]. apply Z.div_lt_upper_bound; [lia|]. nia.
Qed.

(** What one operation adds to the transmitted output. *)
Lemma fire_sends e s :
  sound s →
  ∃ s' new, fire e s = Some s' ∧
            uartTx s' = uartTx s ++ new ∧ Forall sent_line new.
Proof.
  intros [Hwt (line & Hrx)]. destruct e as [sample|b| |].
  - destruct (fire_sound (Conversion sample) s) as (s' & Hfire & _);
      [split; [done|by exists line]|].
    exists s', []. split; [done|]. split; [|done]. rewrite app_nil_r.
    cbn [fire] in Hfire. destruct (adcEnabled s) eqn:Hen.
    + rewrite ADC_Callback_when_enabled in Hfire by (by destruct s).
      injection Hfire as <-. destruct (ADC_SAMPLE_COUNT <=? _); by destruct s.
    + rewrite ADC_Callback_when_disabled in Hfire by (by destruct s).
      injection Hfire as <-. by destruct s.
  - destruct (decide (printable b)) as [Hb|Hb].
    + destruct (decide (line ++ [b] = txt_START)) as [Hstart|Hnstart].
      { destruct (fire_Received_START s line b Hrx Hstart)
          as (s' & Hfire & _ & _ & _ & Htx & _).
        exists s', [ack_START]. split; [done|]. split; [done|].
        apply Forall_cons. split; [by left|done]. }
      destruct (decide (line ++ [b] = txt_STOP)) as [Hstop|Hnstop].
      { destruct (fire_Received_STOP s line b Hrx Hstop)
          as (s' & Hfire & _ & _ & _ & Htx & _).
        exists s', [ack_STOP]. split; [done|]. split; [done|].
        apply Forall_cons. split; [by right; left|done]. }
      destruct (fire_Received_printable s line b Hrx Hb) as (rest & _ & Hfire).
      eexists. exists []. split; [exact Hfire|]. split; [|done].
      rewrite app_nil_r.
      destruct (recognized_quiet line b (line ++ b :: 0 :: rest)
                  (set_rxArmed false (set_rxByte b s)))
        as (_ & _ & _ & _ & Htx & _); [by intros [?|?]|].
      rewrite Htx. by destruct s.
    + cbn [fire]. rewrite UART_RX_Callback_nonprintable by (by destruct s).
      eexists. exists []. split; [reflexivity|]. split; [|done].
      rewrite app_nil_r. by destruct s.
  - destruct (dataReady s) eqn:Hr.
    + rewrite fire_MainLoop_ready by done. by apply Calculate_ADC_Average_sends.
    + rewrite fire_MainLoop_idle by done. exists s, [].
      split; [done|]. split; [|done]. by rewrite app_nil_r.
  - cbn [fire]. by apply Calculate_ADC_Average_sends.
Qed.

(** X9. In every state reachable under any schedule, the transmitted output
    is "READY\r\n", written once and first, followed only by
    acknowledgements "OK_START\r\n" and "OK_STOP\r\n" and by report lines,
    each the decimal numeral of a 32-bit value closed by CR LF. *)
Theorem output_is_READY_then_acknowledgements_and_reports sched s :
  reach sched s →
  ∃ rest, uartTx s = msg_READY :: rest ∧ Forall sent_line rest.
Proof.
  induction 1 as [s Hboot|e s s' Hreach IH _ Hfire].
  - exists []. split; [|done]. by injection Hboot as <-.
  - destruct IH as (rest & Htx & Hrest).
    destruct (fire_sends e s (reachable_sound sched s Hreach))
      as (s1 & new & Hfire1 & Htx1 & Hnew).
    rewrite Hfire in Hfire1. injection Hfire1 as <-.
    exists (rest ++ new). split.
    + by rewrite Htx1, Htx.
    + apply Forall_app. by split.
Qed.

Lemma output_of_the_late_window :
  reach any_order late_window ∧
  ∃ rest, uartTx late_window = msg_READY :: rest ∧ Forall sent_line rest.
Proof.
  assert (reach any_order late_window) as Hreach.
  { apply (reachable_scenario (replicate 1201 0)). vm_compute. reflexivity. }
  split; [exact Hreach|].
  exact (output_is_READY_then_acknowledgements_and_reports any_order
           late_window Hreach).
Defined.

(** ** A restart between windows *)





(** ** The window while sampling is disabled *)

Lemma UART_RX_Callback_disabled_after context s s' :
  exec (UART_RX_Callback context) s = Some s' → adcEnabled s' = false →
  (adcEnabled s = false ∧ adcSum s' = adcSum s ∧
   sampleCount s' = sampleCount s ∧ dataReady s' = dataReady s) ∨
  (adcSum s' = 0 ∧ sampleCount s' = 0 ∧ dataReady s' = false).
Proof.
  unfold UART_RX_Callback, rx_store, rx_strcmp. run_monad.
  destruct s. rx_cbn. intros H Hoff.
  repeat (case_match; simplify_eq/=); try (by left); by right.
Qed.

Lemma Calculate_ADC_Average_adcEnabled s s' :
  exec Calculate_ADC_Average s = Some s' → adcEnabled s' = adcEnabled s.
Proof.
  unfold Calculate_ADC_Average. run_monad.
  destruct s. cbn -[Z.eqb C.udiv C.sprintf_u_crlf C.strlen Z.leb Hal.spin].
  intros H. by repeat (case_match; simplify_eq/=).
Qed.

(** X11. Under any schedule the window is empty whenever sampling is
    disabled: [adcEnabled = false] implies [adcSum = 0], [sampleCount = 0]
    and [dataReady = false]. Before the first "START" and after every
    "STOP" no sample is held and no report is pending, whatever conversions
    completed in between. *)
Theorem disabled_window_is_empty sched s :
  reach sched s → adcEnabled s = false →
  adcSum s = 0 ∧ sampleCount s = 0 ∧ dataReady s = false.
Proof.
  induction 1 as [s Hboot|e s s' _ IH _ Hfire]; intros Hoff.
  - by injection Hboot as <-.
  - destruct e as [sample|b| |].
    + cbn [fire] in Hfire. destruct (adcEnabled s) eqn:Hen.
      * rewrite ADC_Callback_when_enabled in Hfire by (by destruct s).
        injection Hfire as <-.
        destruct (ADC_SAMPLE_COUNT <=? _); destruct s; simpl in *; congruence.
      * rewrite ADC_Callback_when_disabled in Hfire by (by destruct s).
        injection Hfire as <-. destruct (IH eq_refl) as (? & ? & ?).
        by destruct s.
    + cbn [fire] in Hfire.
      apply UART_RX_Callback_disabled_after in Hfire
        as [(Hen & Hs & Hc & Hr)|?]; [|done|done].
      destruct IH as (? & ? & ?); [by destruct s|].
      destruct s; simpl in *. split_and!; congruence.
    + destruct (dataReady s) eqn:Hr.
      * rewrite fire_MainLoop_ready in Hfire by done.
        by apply Calculate_ADC_Average_accum in Hfire.
      * rewrite fire_MainLoop_idle in Hfire by done. injection Hfire as <-.
        rewrite Hr. by apply IH.
    + cbn [fire] in Hfire. by apply Calculate_ADC_Average_accum in Hfire.
Qed.

(** The state after a window in progress is stopped and 100 further
    conversions complete. *)
Lemma disabled_window_is_empty_after_STOP :
  reach any_order
    (the_state (booted ≫= run (bytes_of txt_START ++ samples_of [7; 9] ++
                                bytes_of txt_STOP ++
                                samples_of (replicate 100 1023)))) ∧
  adcEnabled
    (the_state (booted ≫= run (bytes_of txt_START ++ samples_of [7; 9] ++
                                bytes_of txt_STOP ++
                                samples_of (replicate 100 1023)))) = false ∧
  adcSum
    (the_state (booted ≫= run (bytes_of txt_START ++ samples_of [7; 9] ++
                                bytes_of txt_STOP ++
                                samples_of (replicate 100 1023)))) = 0 ∧
  sampleCount
    (the_state (booted ≫= run (bytes_of txt_START ++ samples_of [7; 9] ++
                                bytes_of txt_STOP ++
                                samples_of (replicate 100 1023)))) = 0 ∧
  dataReady
    (the_state (booted ≫= run (bytes_of txt_START ++ samples_of [7; 9] ++
                                bytes_of txt_STOP ++
                                samples_of (replicate 100 1023)))) = false.
Proof.
  assert (reach any_order
            (the_state (booted ≫= run (bytes_of txt_START ++ samples_of [7; 9] ++
                                        bytes_of txt_STOP ++
                                        samples_of (replicate 100 1023)))))
    as Hreach.
  { apply (reach_run any_order
             (bytes_of txt_START ++ samples_of [7; 9] ++ bytes_of txt_STOP ++
              samples_of (replicate 100 1023)) (the_state booted));
      [done|by apply reach_boot|vm_compute; reflexivity]. }
  split; [exact Hreach|]. split; [vm_compute; reflexivity|].
  exact (disabled_window_is_empty any_order _ Hreach eq_refl).
Defined.
